(** * Dynamic pricing engine: a shallow embedding of [src/main.py]

    The development follows the class [DynamicPricingEngine]: the markup
    table, the threshold scan [_factor], the three price calculators, the
    strategy registry and the entry point [calculate] with its single
    write to the [pricing_history] table.

    Numbers.  Python [int] is [Z].  Python [float] is modelled by the
    exact rationals [Q]: every arithmetic operation is the exact one, so
    the binary64 rounding error of a single operation, infinities and NaN
    are outside the model.  [round(x, 2)] is rounding to the nearest
    hundredth with ties to the even hundredth, which is what Python does
    on the exact value of its argument.  The argument itself is an exact
    product here and a rounded one in binary64, so where the exact price
    lies on a half cent the two results can be one cent apart.  What is
    proved about rounded prices below uses only that rounding keeps the
    order of its arguments, which holds for both. *)

From Stdlib Require Import QArith Qround Lqa Lia ZArith String List Sorted.
From stdpp Require Import gmap strings.
Import ListNotations.

Local Open Scope Z_scope.
Local Open Scope Q_scope.
Local Open Scope string_scope.
Local Open Scope list_scope.

(** ** Exceptions and results *)

Inductive exn : Set :=
| ZeroDivisionError   (* float division by zero *)
| TypeError           (* arithmetic on None *)
| IndexError          (* factors[-1] on an empty list *)
| SQLAlchemyError.    (* a failed flush or commit *)

(** The exceptions below Python's [ArithmeticError]. *)
Definition arithmetic_fault (e : exn) : bool :=
  match e with
  | ZeroDivisionError => true
  | _ => false
  end.

Definition result (A : Type) : Type := (exn + A)%type.

Definition raise {A} (e : exn) : result A := inl e.
Definition ret {A} (a : A) : result A := inr a.
Definition rbind {A B} (m : result A) (k : A -> result B) : result B :=
  match m with
  | inl e => inl e
  | inr a => k a
  end.

Notation "'let!' x ':=' m 'in' k" := (rbind m (fun x => k))
  (at level 10, x name, m at level 100, k at level 200, only parsing).

(** ** Python float operations on the rational model *)

Module Py.

Definition ltb (x y : Q) : bool := negb (Qle_bool y x).
Definition gtb (x y : Q) : bool := ltb y x.

(** [max(a, b)] keeps [a] unless [b > a]; [min(a, b)] keeps [a] unless
    [b < a]. *)
Definition max (a b : Q) : Q := if gtb b a then b else a.
Definition min (a b : Q) : Q := if ltb b a then b else a.

(** [a / b] on floats raises when the divisor is zero. *)
Definition div (a b : Q) : result Q :=
  if Qeq_bool b 0 then raise ZeroDivisionError else ret (a / b).

(** [x * y] where [y] may be [None]. *)
Definition mul_opt (x : Q) (y : option Q) : result Q :=
  match y with
  | Some y => ret (x * y)
  | None => raise TypeError
  end.

(** Nearest integer, ties to even. *)
Definition round_half_even (x : Q) : Z :=
  let f := Qfloor x in
  let d := x - inject_Z f in
  if ltb d (1 # 2) then f
  else if ltb (1 # 2) d then (f + 1)%Z
  else if Z.even f then f else (f + 1)%Z.

(** [round(x, 2)]. *)
Definition round2 (x : Q) : Q := inject_Z (round_half_even (x * 100)) / 100.

End Py.

(** ** The request, the returned quote and the history row *)

Module PricingRequest.
Record t : Type := mk {
  product_id : string;
  cost_price : Q;
  demand_score : Z;
  inventory : Z;
  competitor_price : Q;
  customer_segment : option string;    (* Optional[str] = "standard" *)
  seasonality_factor : option Q        (* Optional[float] = 1.0 *)
}.
End PricingRequest.

(** The dictionary every calculator returns. *)
Module PriceData.
Record t : Type := mk {
  product_id : string;
  dynamic_price : Q;
  base_price : Q;
  strategy : string
}.
End PriceData.

(** A row of [pricing_history] as the engine fills it.  The primary key
    and the timestamp are assigned by the database and are left out;
    [conversion_rate] and [revenue_generated] take their column default. *)
Module PricingHistory.
Record t : Type := mk {
  product_id : string;
  original_price : Q;
  dynamic_price : Q;
  demand_score : Z;
  inventory : Z;
  competitor_price : Q;
  strategy_used : string;
  conversion_rate : Q;
  revenue_generated : Q
}.
End PricingHistory.

(** ** Markup table and factor resolver *)

Definition markups : gmap Z Q :=
  {[ 1%Z := 0.15; 2%Z := 0.18; 3%Z := 0.20; 4%Z := 0.25; 5%Z := 0.30;
     6%Z := 0.35; 7%Z := 0.42; 8%Z := 0.50; 9%Z := 0.60; 10%Z := 0.75 ]}.

Definition _get_base_markup (ds : Z) : Q := default 0.30 (markups !! ds).

(** [zip] stops at the shorter list; the first pair whose threshold is
    not exceeded decides. *)
Fixpoint factor_scan {F : Type} (value : Z) (pairs : list (Z * F)) : option F :=
  match pairs with
  | [] => None
  | (th, f) :: rest => if (value <=? th)%Z then Some f else factor_scan value rest
  end.

(** [factors[-1]]. *)
Fixpoint last_item {F : Type} (factors : list F) : result F :=
  match factors with
  | [] => raise IndexError
  | [f] => ret f
  | _ :: rest => last_item rest
  end.

Definition _factor {F : Type} (value : Z) (thresholds : list Z) (factors : list F)
  : result F :=
  match factor_scan value (List.combine thresholds factors) with
  | Some f => ret f
  | None => last_item factors
  end.

(** ** The three calculators *)

Import PricingRequest.

Definition seg_factors : gmap string Q :=
  {[ "premium" := 1.2; "standard" := 1.0; "budget" := 0.85; "loyalty" := 0.90 ]}.

(** [seg_factors.get(segment, 1.0)]; the key may be [None], which is in
    no dictionary of strings. *)
Definition seg_factor_of (segment : option string) : Q :=
  match segment with
  | Some s => default 1.0 (seg_factors !! s)
  | None => 1.0
  end.

Definition _calculate_default_price (req : PricingRequest.t) : result PriceData.t :=
  let base := cost_price req * (1 + _get_base_markup (demand_score req)) in
  let! demand_factor := _factor (demand_score req) [3; 7]%Z [0.85; 1.0; 1.25] in
  let! inv_factor := _factor (inventory req) [10; 100]%Z [1.15; 1.0; 0.90] in
  let! comp_ratio := Py.div base (competitor_price req) in
  let comp_factor :=
    if Py.gtb comp_ratio 1.1 then 0.95
    else if Py.ltb comp_ratio 0.9 then 1.05 else 1.0 in
  let seg_factor := seg_factor_of (customer_segment req) in
  let! price :=
    Py.mul_opt (base * demand_factor * inv_factor * comp_factor)
               (seasonality_factor req) in
  let price := price * seg_factor in
  let price :=
    Py.max (cost_price req * 1.1) (Py.min price (competitor_price req * 1.2)) in
  ret {| PriceData.product_id := product_id req;
         PriceData.dynamic_price := Py.round2 price;
         PriceData.base_price := Py.round2 base;
         PriceData.strategy := "default" |}.

Definition _calculate_aggressive_price (req : PricingRequest.t) : result PriceData.t :=
  let base := cost_price req * (1 + _get_base_markup (demand_score req) + 0.1) in
  let! demand_factor := _factor (demand_score req) [3; 7]%Z [0.9; 1.1; 1.4] in
  let price := base * demand_factor in
  let price :=
    Py.max (cost_price req * 1.05) (Py.min price (competitor_price req * 1.1)) in
  ret {| PriceData.product_id := product_id req;
         PriceData.dynamic_price := Py.round2 price;
         PriceData.base_price := Py.round2 base;
         PriceData.strategy := "aggressive" |}.

Definition _calculate_conservative_price (req : PricingRequest.t) : result PriceData.t :=
  let base := cost_price req * (1 + _get_base_markup (demand_score req) - 0.05) in
  let! demand_factor := _factor (demand_score req) [3; 7]%Z [0.8; 0.95; 1.15] in
  let price := base * demand_factor in
  let price :=
    Py.max (cost_price req * 1.15) (Py.min price (competitor_price req * 0.95)) in
  ret {| PriceData.product_id := product_id req;
         PriceData.dynamic_price := Py.round2 price;
         PriceData.base_price := Py.round2 base;
         PriceData.strategy := "conservative" |}.

(** ** Strategy registry *)

Definition price_adjustment_strategies
  : gmap string (PricingRequest.t -> result PriceData.t) :=
  {[ "default" := _calculate_default_price;
     "aggressive" := _calculate_aggressive_price;
     "conservative" := _calculate_conservative_price ]}.

(** ** The database session

    The table [pricing_history] is the list of its rows, oldest first.
    A session collects pending rows; [commit] writes them in one
    transaction, which the database either accepts as a whole or rejects
    as a whole.  Which of the two happens is decided outside the engine
    and enters as [commit_accepts].  The journal records what the engine
    asked of the database, in order. *)

Inductive db_event : Type :=
| SessionOpened
| RowAdded (row : PricingHistory.t)
| Committed
| CommitRejected
| SessionClosed.

Record Database : Type := {
  pricing_history : list PricingHistory.t;
  journal : list db_event
}.

Record Session : Type := { pending : list PricingHistory.t }.

Definition logged (ev : db_event) (w : Database) : Database :=
  {| pricing_history := pricing_history w; journal := journal w ++ [ev] |}.

(** [PricingHistory(product_id=..., ..., strategy_used=strategy)] as
    [calculate] builds it. *)
Definition history_row (req : PricingRequest.t) (price_data : PriceData.t)
    (strategy : string) : PricingHistory.t :=
  {| PricingHistory.product_id := product_id req;
     PricingHistory.original_price := PriceData.base_price price_data;
     PricingHistory.dynamic_price := PriceData.dynamic_price price_data;
     PricingHistory.demand_score := demand_score req;
     PricingHistory.inventory := inventory req;
     PricingHistory.competitor_price := competitor_price req;
     PricingHistory.strategy_used := strategy;
     PricingHistory.conversion_rate := 0.0;
     PricingHistory.revenue_generated := 0.0 |}.

Section Engine.

Variable commit_accepts : list PricingHistory.t -> list PricingHistory.t -> bool.

Definition SessionLocal (w : Database) : Session * Database :=
  ({| pending := [] |}, logged SessionOpened w).

Definition Session_add (db : Session) (row : PricingHistory.t) (w : Database)
  : Session * Database :=
  ({| pending := pending db ++ [row] |}, logged (RowAdded row) w).

Definition Session_commit (db : Session) (w : Database)
  : result Session * Database :=
  if commit_accepts (pricing_history w) (pending db) then
    (ret {| pending := [] |},
     logged Committed
       {| pricing_history := pricing_history w ++ pending db;
          journal := journal w |})
  else (raise SQLAlchemyError, logged CommitRejected w).

Definition Session_close (w : Database) : Database := logged SessionClosed w.

(** [with get_db() as db: body]: the session is closed on every exit
    of the body, and an exception of the body is raised again. *)
Definition get_db {A : Type} (body : Session -> Database -> result A * Database)
  (w : Database) : result A * Database :=
  let '(db, w) := SessionLocal w in
  let '(r, w) := body db w in
  (r, Session_close w).

Definition calculate (req : PricingRequest.t) (strategy : string) (w : Database)
  : result PriceData.t * Database :=
  let calculation_method :=
    default _calculate_default_price (price_adjustment_strategies !! strategy) in
  match calculation_method req with
  | inl e => (inl e, w)
  | inr price_data =>
      let '(r, w) :=
        get_db (fun db w =>
          let '(db, w) := Session_add db (history_row req price_data strategy) w in
          Session_commit db w) w in
      match r with
      | inl e => (inl e, w)
      | inr _ => (inr price_data, w)
      end
  end.

End Engine.

(** ** The price endpoint

    [POST /calculate-price] awaits [calculate] without a strategy
    argument, so the parameter takes its default ["default"]. *)

Definition calculate_price
    (commit_accepts : list PricingHistory.t -> list PricingHistory.t -> bool)
    (request : PricingRequest.t) (w : Database) : result PriceData.t * Database :=
  calculate commit_accepts request "default" w.

(** Requests handled one after the other.  [calculate] contains no
    [await], so a call runs to its end before the next one starts. *)
Fixpoint serve
    (commit_accepts : list PricingHistory.t -> list PricingHistory.t -> bool)
    (requests : list PricingRequest.t) (w : Database)
  : list (result PriceData.t) * Database :=
  match requests with
  | [] => ([], w)
  | request :: rest =>
      let '(r, w) := calculate_price commit_accepts request w in
      let '(rs, w) := serve commit_accepts rest w in
      (r :: rs, w)
  end.

Definition is_quote {A : Type} (r : result A) : bool :=
  match r with
  | inr _ => true
  | inl _ => false
  end.

(** Sessions opened and not yet closed, read off a journal. *)
Fixpoint open_sessions (events : list db_event) : Z :=
  match events with
  | [] => 0%Z
  | SessionOpened :: rest => (open_sessions rest + 1)%Z
  | SessionClosed :: rest => (open_sessions rest - 1)%Z
  | _ :: rest => open_sessions rest
  end.

(** ** The competitor monitor

    The background task of [POST /competitor-prices/update].  A row of
    [competitor_prices] is kept without its primary key and timestamp,
    as for [pricing_history].  [random.uniform(a, b)] is
    [a + (b - a) * random.random()]; the draws of [random.random()] come
    from outside as [random], the [n]-th call returning [random n]. *)

Module CompetitorPrice.
Record t : Type := mk {
  product_id : string;
  competitor_name : string;
  price : Q;
  is_active : bool
}.
End CompetitorPrice.

Definition competitors : list string :=
  ["Amazon"; "Walmart"; "Target"; "BestBuy"; "eBay"].

Definition uniform (a b draw : Q) : Q := a + (b - a) * draw.

(** The [for] loop: one draw and one [db.add] per competitor. *)
Fixpoint monitor_loop (random : nat -> Q) (n : nat) (names : list string)
    (pending : list CompetitorPrice.t) : list CompetitorPrice.t :=
  match names with
  | [] => pending
  | competitor :: rest =>
      let mock_price := Py.round2 (uniform 40 60 (random n)) in
      monitor_loop random (S n) rest
        (pending ++ [ {| CompetitorPrice.product_id := "PROD-001";
                         CompetitorPrice.competitor_name := competitor;
                         CompetitorPrice.price := mock_price;
                         CompetitorPrice.is_active := true |} ])
  end.

(** The session adds the five rows and commits once; the commit is
    accepted or rejected as a whole, and the session is closed either
    way. *)
Definition monitor_competitors
    (commit_accepts : list CompetitorPrice.t -> list CompetitorPrice.t -> bool)
    (random : nat -> Q) (n : nat) (competitor_prices : list CompetitorPrice.t)
  : result unit * list CompetitorPrice.t :=
  let pending := monitor_loop random n competitors [] in
  if commit_accepts competitor_prices pending
  then (ret tt, competitor_prices ++ pending)
  else (raise SQLAlchemyError, competitor_prices).

(** ** Sample runs *)

Definition req_spec_example : PricingRequest.t :=
  {| product_id := "P1"; cost_price := 10; demand_score := 5; inventory := 50;
     competitor_price := 20; customer_segment := Some "standard";
     seasonality_factor := Some 1.0 |}.


(** Cost above the competitor: every floor is above its ceiling. *)
Definition req_cost_above_competitor : PricingRequest.t :=
  {| product_id := "P3"; cost_price := 100; demand_score := 5; inventory := 50;
     competitor_price := 50; customer_segment := Some "standard";
     seasonality_factor := Some 1.0 |}.

(** Cost above the competitor, and floors with more than two decimals. *)
Definition req_inverted_not_in_cents : PricingRequest.t :=
  {| product_id := "P4"; cost_price := 10.01; demand_score := 1; inventory := 50;
     competitor_price := 5; customer_segment := Some "standard";
     seasonality_factor := Some 1.0 |}.


(** The conservative example of the specification. *)
Definition req_conservative_example : PricingRequest.t :=
  {| product_id := "P6"; cost_price := 100; demand_score := 1; inventory := 50;
     competitor_price := 90; customer_segment := Some "standard";
     seasonality_factor := Some 1.0 |}.

Definition req_zero_competitor : PricingRequest.t :=
  {| product_id := "P7"; cost_price := 10; demand_score := 5; inventory := 50;
     competitor_price := 0; customer_segment := Some "standard";
     seasonality_factor := Some 1.0 |}.

Definition req_no_seasonality : PricingRequest.t :=
  {| product_id := "P8"; cost_price := 10; demand_score := 5; inventory := 50;
     competitor_price := 20; customer_segment := None;
     seasonality_factor := None |}.

Definition empty_database : Database :=
  {| pricing_history := []; journal := [] |}.

Definition always_accepts (table pending : list PricingHistory.t) : bool := true.
Definition always_rejects (table pending : list PricingHistory.t) : bool := false.

Example markup_5 : _get_base_markup 5 = 0.30.
Proof. reflexivity. Qed.

Example factor_mid : _factor 5 [3; 7]%Z [0.85; 1.0; 1.25] = inr 1.0.
Proof. reflexivity. Qed.

Example round2_tie : Py.round2 0.125 == 0.12 /\ Py.round2 0.375 == 0.38.
Proof. split; reflexivity. Qed.

Example default_spec_example :
  exists q, _calculate_default_price req_spec_example = inr q
            /\ PriceData.dynamic_price q == 13.65 /\ PriceData.base_price q == 13.0.
Proof. eexists; split; [vm_compute; reflexivity | split; reflexivity]. Qed.

(** ** Comparison, clamp and rounding on the rational model *)

Lemma ltb_lt (x y : Q) : Py.ltb x y = true <-> x < y.
Proof.
  unfold Py.ltb. rewrite negb_true_iff.
  split; intros H.
  - apply Qnot_le_lt. intros Hle. apply Qle_bool_iff in Hle. congruence.
  - destruct (Qle_bool y x) eqn:E; [|reflexivity].
    apply Qle_bool_iff in E. exfalso. apply (Qlt_not_le _ _ H E).
Qed.

Lemma ltb_ge (x y : Q) : Py.ltb x y = false <-> y <= x.
Proof.
  unfold Py.ltb. rewrite negb_false_iff. apply Qle_bool_iff.
Qed.

Ltac py_cmp :=
  repeat match goal with
  | H : Py.gtb _ _ = _ |- _ => unfold Py.gtb in H
  | H : Py.ltb _ _ = true |- _ => apply ltb_lt in H
  | H : Py.ltb _ _ = false |- _ => apply ltb_ge in H
  end.

Lemma max_lower (a b : Q) : a <= Py.max a b.
Proof.
  unfold Py.max. destruct (Py.gtb b a) eqn:E; py_cmp; lra.
Qed.



Lemma round_half_even_mono (x y : Q) :
  x <= y -> (Py.round_half_even x <= Py.round_half_even y)%Z.
Proof.
  intros Hxy.
  pose proof (Qfloor_le x) as Hxlo.
  pose proof (Qlt_floor x) as Hxhi.
  pose proof (Qfloor_le y) as Hylo.
  pose proof (Qlt_floor y) as Hyhi.
  pose proof (Qfloor_resp_le _ _ Hxy) as Hf.
  rewrite inject_Z_plus in Hxhi, Hyhi.
  change (inject_Z 1) with 1 in Hxhi, Hyhi.
  unfold Py.round_half_even.
  destruct (Z.eq_dec (Qfloor x) (Qfloor y)) as [Heq | Hne].
  - rewrite Heq in *.
    destruct (Py.ltb (x - inject_Z (Qfloor y)) (1 # 2)) eqn:X1;
      [| destruct (Py.ltb (1 # 2) (x - inject_Z (Qfloor y))) eqn:X2];
      (destruct (Py.ltb (y - inject_Z (Qfloor y)) (1 # 2)) eqn:Y1;
       [| destruct (Py.ltb (1 # 2) (y - inject_Z (Qfloor y))) eqn:Y2]);
      py_cmp; destruct (Z.even (Qfloor y)); try lia; exfalso; lra.
  - assert (Qfloor x + 1 <= Qfloor y)%Z as Hstep by lia.
    destruct (Py.ltb (x - inject_Z (Qfloor x)) (1 # 2));
      [| destruct (Py.ltb (1 # 2) (x - inject_Z (Qfloor x)));
         [| destruct (Z.even (Qfloor x))]];
      (destruct (Py.ltb (y - inject_Z (Qfloor y)) (1 # 2));
       [| destruct (Py.ltb (1 # 2) (y - inject_Z (Qfloor y)));
          [| destruct (Z.even (Qfloor y))]]);
      lia.
Qed.

Ltac hundredths := unfold Qdiv; change (/ 100) with (1 # 100).

Lemma round2_mono (x y : Q) : x <= y -> Py.round2 x <= Py.round2 y.
Proof.
  intros Hxy. unfold Py.round2.
  assert (x * 100 <= y * 100) as H100 by lra.
  apply round_half_even_mono in H100.
  rewrite Zle_Qle in H100. hundredths. lra.
Qed.

(** ** The markup table *)

Lemma markups_outside (ds : Z) : (ds < 1 \/ 10 < ds)%Z -> markups !! ds = None.
Proof.
  intros H. unfold markups.
  repeat (rewrite lookup_insert_ne by lia).
  apply lookup_singleton_ne. lia.
Qed.

(** C7: the ten demand scores 1..10 have the markups of the table, and
    every other integer gets 0.30; the lookup is a total function, so no
    score raises. *)
Theorem base_markup_table :
  _get_base_markup 1 = 0.15 /\ _get_base_markup 2 = 0.18
  /\ _get_base_markup 3 = 0.20 /\ _get_base_markup 4 = 0.25
  /\ _get_base_markup 5 = 0.30 /\ _get_base_markup 6 = 0.35
  /\ _get_base_markup 7 = 0.42 /\ _get_base_markup 8 = 0.50
  /\ _get_base_markup 9 = 0.60 /\ _get_base_markup 10 = 0.75
  /\ forall ds : Z, (ds < 1 \/ 10 < ds)%Z -> _get_base_markup ds = 0.30.
Proof.
  repeat (split; [reflexivity |]).
  intros ds H. unfold _get_base_markup.
  rewrite (markups_outside ds H). reflexivity.
Qed.

Lemma base_markup_table_witness :
  (10 < 11)%Z /\ _get_base_markup 11 = 0.30 /\ _get_base_markup (-4) = 0.30.
Proof.
  split; [lia |].
  split; apply base_markup_table; lia.
Defined.

(** ** The factor resolver *)

Lemma factor_cons {F : Type} (value t : Z) (ts : list Z) (f : F) (fs : list F) :
  fs <> [] ->
  _factor value (t :: ts) (f :: fs)
  = if (value <=? t)%Z then inr f else _factor value ts fs.
Proof.
  intros Hne. unfold _factor. simpl.
  destruct (value <=? t)%Z; [reflexivity |].
  destruct (factor_scan value (combine ts fs)); [reflexivity |].
  destruct fs as [| g gs]; [contradiction | reflexivity].
Qed.

(** C8: with one factor more than thresholds, the scan returns the factor
    at the position of the first threshold that the value does not
    exceed, whatever the order of the thresholds; when the value exceeds
    them all it returns the last factor; and it always returns. *)
Theorem factor_first_threshold {F : Type}
    (value : Z) (thresholds : list Z) (factors : list F) :
  length factors = S (length thresholds) ->
  (forall (i : nat) (th : Z),
      thresholds !! i = Some th -> (value <= th)%Z ->
      (forall (j : nat) (thj : Z),
          (j < i)%nat -> thresholds !! j = Some thj -> (thj < value)%Z) ->
      exists f, factors !! i = Some f /\ _factor value thresholds factors = inr f)
  /\ ((forall th : Z, th ∈ thresholds -> (th < value)%Z) ->
      exists f, last factors = Some f
                /\ _factor value thresholds factors = inr f)
  /\ exists f, _factor value thresholds factors = inr f.
Proof.
  revert factors.
  induction thresholds as [| t ts IH]; intros factors Hlen.
  - destruct factors as [| f [| g gs]]; try discriminate.
    split; [| split].
    + intros i th Hi. destruct i; discriminate.
    + intros _. exists f. split; reflexivity.
    + exists f. reflexivity.
  - destruct factors as [| f fs]; [discriminate |].
    assert (length fs = S (length ts)) as Hlen' by (simpl in Hlen; lia).
    assert (fs <> []) as Hne by (destruct fs; [discriminate | congruence]).
    rewrite (factor_cons value t ts f fs Hne).
    destruct (IH fs Hlen') as (IHfirst & IHlast & IHtotal).
    destruct (Z.leb_spec value t) as [Hle | Hgt].
    + split; [| split].
      * intros i th Hi Hth Hbefore. destruct i as [| i].
        -- exists f. split; reflexivity.
        -- exfalso. specialize (Hbefore 0%nat t). simpl in Hbefore.
           assert (t < value)%Z by (apply Hbefore; [lia | reflexivity]). lia.
      * intros Hall. exfalso.
        assert (t < value)%Z by (apply Hall; left). lia.
      * exists f. reflexivity.
    + split; [| split].
      * intros i th Hi Hth Hbefore. destruct i as [| i].
        -- simpl in Hi. injection Hi as ->. lia.
        -- simpl. apply (IHfirst i th Hi Hth).
           intros j thj Hj Hlook. apply (Hbefore (S j) thj); [lia | exact Hlook].
      * intros Hall.
        destruct IHlast as (g & Hg & Hres).
        { intros th Hin. apply Hall. right. exact Hin. }
        exists g. split; [| exact Hres].
        destruct fs as [| f' fs']; [contradiction | exact Hg].
      * exact IHtotal.
Qed.

Lemma factor_first_threshold_witness :
  _factor 8 [7; 3; 9]%Z ["a"; "b"; "c"; "d"] = inr "c"
  /\ _factor 10 [7; 3; 9]%Z ["a"; "b"; "c"; "d"] = inr "d".
Proof.
  split.
  - destruct (factor_first_threshold 8 [7; 3; 9]%Z ["a"; "b"; "c"; "d"] eq_refl)
      as (Hfirst & _ & _).
    destruct (Hfirst 2%nat 9%Z eq_refl) as (f & Hf & Hres).
    + lia.
    + intros j thj Hj Hlook.
      destruct j as [| [| j]]; simpl in Hlook; [| | lia];
        injection Hlook as <-; lia.
    + injection Hf as <-. exact Hres.
  - destruct (factor_first_threshold 10 [7; 3; 9]%Z ["a"; "b"; "c"; "d"] eq_refl)
      as (_ & Hlast & _).
    destruct Hlast as (f & Hf & Hres).
    + intros th Hin.
      repeat (apply elem_of_cons in Hin as [-> | Hin]; [lia |]).
      apply elem_of_nil in Hin. contradiction.
    + injection Hf as <-. exact Hres.
Defined.

(** The three calls of the calculators have two thresholds and three
    factors: the scan is a two-step comparison and never raises. *)
Lemma factor_two {F : Type} (value t1 t2 : Z) (a b c : F) :
  _factor value [t1; t2] [a; b; c]
  = inr (if (value <=? t1)%Z then a else if (value <=? t2)%Z then b else c).
Proof.
  unfold _factor. simpl.
  destruct (value <=? t1)%Z; [reflexivity |].
  destruct (value <=? t2)%Z; reflexivity.
Qed.

(** ** Clamp bands *)


Ltac run_result := cbv beta iota zeta delta [rbind ret raise Py.mul_opt].

Lemma default_price_shape (req : PricingRequest.t) (s : Q) :
  ~ competitor_price req == 0 ->
  seasonality_factor req = Some s ->
  exists raw base : Q,
    _calculate_default_price req
    = inr {| PriceData.product_id := product_id req;
             PriceData.dynamic_price :=
               Py.round2 (Py.max (cost_price req * 1.1)
                                 (Py.min raw (competitor_price req * 1.2)));
             PriceData.base_price := Py.round2 base;
             PriceData.strategy := "default" |}.
Proof.
  intros Hcomp Hseason. unfold _calculate_default_price.
  rewrite !factor_two. unfold Py.div.
  destruct (Qeq_bool (competitor_price req) 0) eqn:E.
  { apply Qeq_bool_iff in E. contradiction. }
  rewrite Hseason. run_result.
  eexists. eexists. reflexivity.
Qed.

Lemma aggressive_price_shape (req : PricingRequest.t) :
  exists raw base : Q,
    _calculate_aggressive_price req
    = inr {| PriceData.product_id := product_id req;
             PriceData.dynamic_price :=
               Py.round2 (Py.max (cost_price req * 1.05)
                                 (Py.min raw (competitor_price req * 1.1)));
             PriceData.base_price := Py.round2 base;
             PriceData.strategy := "aggressive" |}.
Proof.
  unfold _calculate_aggressive_price. rewrite factor_two. run_result.
  eexists. eexists. reflexivity.
Qed.

Lemma conservative_price_shape (req : PricingRequest.t) :
  exists raw base : Q,
    _calculate_conservative_price req
    = inr {| PriceData.product_id := product_id req;
             PriceData.dynamic_price :=
               Py.round2 (Py.max (cost_price req * 1.15)
                                 (Py.min raw (competitor_price req * 0.95)));
             PriceData.base_price := Py.round2 base;
             PriceData.strategy := "conservative" |}.
Proof.
  unfold _calculate_conservative_price. rewrite factor_two. run_result.
  eexists. eexists. reflexivity.
Qed.

(** ** The default calculator *)




(** ** The aggressive calculator *)




(** ** The conservative calculator *)




(** ** The entry point *)

Lemma calculate_unfold (commit_accepts : list PricingHistory.t -> list PricingHistory.t -> bool)
    (req : PricingRequest.t) (strategy : string) (w : Database) :
  calculate commit_accepts req strategy w
  = match default _calculate_default_price
                  (price_adjustment_strategies !! strategy) req with
    | inl e => (inl e, w)
    | inr q =>
        let row := history_row req q strategy in
        if commit_accepts (pricing_history w) [row] then
          (inr q,
           {| pricing_history := pricing_history w ++ [row];
              journal := journal w
                         ++ [SessionOpened; RowAdded row; Committed; SessionClosed] |})
        else
          (inl SQLAlchemyError,
           {| pricing_history := pricing_history w;
              journal := journal w
                         ++ [SessionOpened; RowAdded row; CommitRejected;
                             SessionClosed] |})
    end.
Proof.
  unfold calculate.
  destruct (default _calculate_default_price
                    (price_adjustment_strategies !! strategy) req) as [e | q];
    [reflexivity |].
  unfold get_db, SessionLocal, Session_add, Session_commit, Session_close, logged.
  cbn [pending pricing_history journal app].
  destruct (commit_accepts (pricing_history w) [history_row req q strategy]);
    cbn [pending pricing_history journal raise ret];
    rewrite <- !app_assoc; reflexivity.
Qed.

Lemma registry_default :
  price_adjustment_strategies !! "default" = Some _calculate_default_price.
Proof. reflexivity. Qed.

Lemma registry_aggressive :
  price_adjustment_strategies !! "aggressive" = Some _calculate_aggressive_price.
Proof. reflexivity. Qed.

Lemma registry_conservative :
  price_adjustment_strategies !! "conservative" = Some _calculate_conservative_price.
Proof. reflexivity. Qed.

Lemma registry_unknown (strategy : string) :
  strategy <> "default" -> strategy <> "aggressive" -> strategy <> "conservative" ->
  price_adjustment_strategies !! strategy = None.
Proof.
  intros Hd Ha Hc. unfold price_adjustment_strategies.
  rewrite lookup_insert_ne by congruence.
  rewrite lookup_insert_ne by congruence.
  apply lookup_singleton_ne. congruence.
Qed.

(** Every name but the two other registered ones runs the default
    calculator. *)
Lemma selects_default (strategy : string) :
  strategy <> "aggressive" -> strategy <> "conservative" ->
  default _calculate_default_price (price_adjustment_strategies !! strategy)
  = _calculate_default_price.
Proof.
  intros Ha Hc. destruct (decide (strategy = "default")) as [-> | Hd].
  - rewrite registry_default. reflexivity.
  - rewrite (registry_unknown strategy Hd Ha Hc). reflexivity.
Qed.

(** ** Faults of the calculators *)

Lemma default_outcome (req : PricingRequest.t) :
  (competitor_price req == 0
   /\ _calculate_default_price req = inl ZeroDivisionError)
  \/ (~ competitor_price req == 0
      /\ seasonality_factor req = None
      /\ _calculate_default_price req = inl TypeError)
  \/ (~ competitor_price req == 0
      /\ exists q, _calculate_default_price req = inr q).
Proof.
  unfold _calculate_default_price. rewrite !factor_two. unfold Py.div.
  destruct (Qeq_bool (competitor_price req) 0) eqn:E.
  - left. split; [apply Qeq_bool_iff, E | reflexivity].
  - right.
    assert (~ competitor_price req == 0) as Hnz.
    { intros Hz. apply Qeq_bool_iff in Hz. congruence. }
    destruct (seasonality_factor req) as [s |].
    + right. split; [exact Hnz |]. run_result. eexists. reflexivity.
    + left. split; [exact Hnz |]. split; reflexivity.
Qed.

Lemma default_raises_on_zero (req : PricingRequest.t) :
  competitor_price req == 0 ->
  _calculate_default_price req = inl ZeroDivisionError.
Proof.
  intros Hz.
  destruct (default_outcome req) as [[_ H] | [[Hnz _] | [Hnz _]]];
    [exact H | contradiction | contradiction].
Qed.

(** C5: the default calculator raises an arithmetic fault exactly when
    the competitor price is zero; [calculate] then ends with that fault
    for every strategy name that runs the default calculator, and the
    database is as it was: no session, no row. *)
Theorem default_zero_division (req : PricingRequest.t) :
  ((exists e : exn,
       _calculate_default_price req = inl e /\ arithmetic_fault e = true)
   <-> competitor_price req == 0)
  /\ (competitor_price req == 0 ->
      forall (commit_accepts : list PricingHistory.t -> list PricingHistory.t -> bool)
             (strategy : string) (w : Database),
        strategy <> "aggressive" -> strategy <> "conservative" ->
        calculate commit_accepts req strategy w = (inl ZeroDivisionError, w)).
Proof.
  split.
  - split.
    + intros (e & He & Hfault).
      destruct (default_outcome req) as [[Hz _] | [(_ & _ & H) | (_ & q & H)]].
      * exact Hz.
      * rewrite H in He. injection He as <-. discriminate.
      * rewrite H in He. discriminate.
    + intros Hz. exists ZeroDivisionError.
      split; [apply default_raises_on_zero, Hz | reflexivity].
  - intros Hz commit_accepts strategy w Ha Hc.
    rewrite calculate_unfold, (selects_default strategy Ha Hc).
    rewrite (default_raises_on_zero req Hz). reflexivity.
Qed.

Lemma default_zero_division_witness :
  calculate always_accepts req_zero_competitor "default" empty_database
  = (inl ZeroDivisionError, empty_database)
  /\ calculate always_accepts req_zero_competitor "no such strategy" empty_database
     = (inl ZeroDivisionError, empty_database).
Proof.
  destruct (default_zero_division req_zero_competitor) as [_ H].
  split; apply H; (reflexivity || discriminate).
Defined.

(** C10: the aggressive and the conservative calculator return a quote
    for every request, a zero competitor price included, so [calculate]
    under these two names never ends with an arithmetic fault; the
    default calculator does raise on a zero competitor price. *)
Theorem aggressive_conservative_total (req : PricingRequest.t) :
  (exists q, _calculate_aggressive_price req = inr q)
  /\ (exists q, _calculate_conservative_price req = inr q)
  /\ (forall (commit_accepts : list PricingHistory.t -> list PricingHistory.t -> bool)
             (strategy : string) (w w' : Database) (e : exn),
        strategy = "aggressive" \/ strategy = "conservative" ->
        calculate commit_accepts req strategy w = (inl e, w') ->
        arithmetic_fault e = false)
  /\ (competitor_price req == 0 ->
      _calculate_default_price req = inl ZeroDivisionError).
Proof.
  destruct (aggressive_price_shape req) as (rawa & basea & Ha).
  destruct (conservative_price_shape req) as (rawc & basec & Hc).
  split; [eexists; exact Ha |].
  split; [eexists; exact Hc |].
  split; [| apply default_raises_on_zero].
  intros commit_accepts strategy w w' e Hname Hcalc.
  rewrite calculate_unfold in Hcalc.
  destruct Hname as [-> | ->].
  - rewrite registry_aggressive in Hcalc. cbn [from_option id] in Hcalc.
    rewrite Ha in Hcalc. cbv zeta in Hcalc.
    destruct (commit_accepts _ _); inversion Hcalc; reflexivity.
  - rewrite registry_conservative in Hcalc. cbn [from_option id] in Hcalc.
    rewrite Hc in Hcalc. cbv zeta in Hcalc.
    destruct (commit_accepts _ _); inversion Hcalc; reflexivity.
Qed.

Lemma aggressive_conservative_total_witness :
  (exists q, _calculate_aggressive_price req_zero_competitor = inr q)
  /\ (exists q, _calculate_conservative_price req_zero_competitor = inr q)
  /\ _calculate_default_price req_zero_competitor = inl ZeroDivisionError.
Proof.
  destruct (aggressive_conservative_total req_zero_competitor)
    as (Ha & Hc & _ & Hd).
  split; [exact Ha |]. split; [exact Hc |].
  apply Hd. reflexivity.
Defined.

(** ** Unknown strategy names *)

(** C4: a strategy name outside the registry runs the default
    calculator.  The price data it computes is that of ["default"], a
    fault included; a quote that [calculate] returns under the unknown
    name is the quote every successful ["default"] call on the request
    returns; and the one row written carries the requested name. *)
Theorem unknown_strategy_falls_back
    (commit_accepts : list PricingHistory.t -> list PricingHistory.t -> bool)
    (req : PricingRequest.t) (strategy : string) (w : Database) :
  strategy <> "default" -> strategy <> "aggressive" -> strategy <> "conservative" ->
  default _calculate_default_price (price_adjustment_strategies !! strategy) req
  = default _calculate_default_price (price_adjustment_strategies !! "default") req
  /\ (forall (q : PriceData.t) (w' : Database),
        calculate commit_accepts req strategy w = (inr q, w') ->
        _calculate_default_price req = inr q
        /\ (forall commit_accepts0 w0 q0 w0',
              calculate commit_accepts0 req "default" w0 = (inr q0, w0') -> q0 = q)
        /\ exists row : PricingHistory.t,
            pricing_history w' = pricing_history w ++ [row]
            /\ PricingHistory.strategy_used row = strategy
            /\ PricingHistory.dynamic_price row = PriceData.dynamic_price q
            /\ PricingHistory.original_price row = PriceData.base_price q)
  /\ (forall q : PriceData.t,
        _calculate_default_price req = inr q ->
        commit_accepts (pricing_history w) [history_row req q strategy] = true ->
        exists w' : Database, calculate commit_accepts req strategy w = (inr q, w'))
  /\ (forall e : exn,
        _calculate_default_price req = inl e ->
        calculate commit_accepts req strategy w = (inl e, w)
        /\ calculate commit_accepts req "default" w = (inl e, w)).
Proof.
  intros Hd Ha Hc.
  assert (default _calculate_default_price (price_adjustment_strategies !! strategy)
          = _calculate_default_price) as Hsel by (apply selects_default; assumption).
  split; [rewrite Hsel, registry_default; reflexivity |].
  split; [| split].
  - intros q w' Hcalc.
    rewrite calculate_unfold, Hsel in Hcalc.
    destruct (_calculate_default_price req) as [e | q1] eqn:Hq; [inversion Hcalc |].
    cbv zeta in Hcalc.
    destruct (commit_accepts _ _); inversion Hcalc; subst.
    split; [reflexivity |]. split.
    + intros commit_accepts0 w0 q0 w0' Hcalc0.
      rewrite calculate_unfold, registry_default in Hcalc0.
      cbn [from_option id] in Hcalc0. rewrite Hq in Hcalc0. cbv zeta in Hcalc0.
      destruct (commit_accepts0 _ _); inversion Hcalc0; reflexivity.
    + exists (history_row req q strategy). repeat split.
  - intros q Hq Hacc.
    rewrite calculate_unfold, Hsel, Hq. cbv zeta. rewrite Hacc.
    eexists. reflexivity.
  - intros e He. split.
    + rewrite calculate_unfold, Hsel, He. reflexivity.
    + rewrite calculate_unfold, registry_default. cbn [from_option id].
      rewrite He. reflexivity.
Qed.

Lemma unknown_strategy_falls_back_witness :
  exists (q : PriceData.t) (w' : Database) (row : PricingHistory.t),
    calculate always_accepts req_spec_example "" empty_database = (inr q, w')
    /\ _calculate_default_price req_spec_example = inr q
    /\ pricing_history w' = [row]
    /\ PricingHistory.strategy_used row = "".
Proof.
  destruct (unknown_strategy_falls_back always_accepts req_spec_example ""
              empty_database) as (_ & Hquote & Hrun & _);
    [discriminate | discriminate | discriminate |].
  destruct (default_price_shape req_spec_example 1.0) as (raw & base & Hq);
    [discriminate | reflexivity |].
  destruct (Hrun _ Hq eq_refl) as (w' & Hcalc).
  destruct (Hquote _ w' Hcalc) as (Hq' & _ & row & Hrows & Hname & _).
  eexists. exists w', row.
  split; [exact Hcalc |]. split; [exact Hq' |]. split; [exact Hrows | exact Hname].
Defined.

(** ** The write to storage *)

(** C6: when the calculation succeeded and the database rejects the
    commit, [calculate] ends with the storage exception instead of the
    quote, the table has the rows it had, and the journal shows one
    session with one add and one commit attempt, closed afterwards. *)
Theorem storage_failure_propagates
    (commit_accepts : list PricingHistory.t -> list PricingHistory.t -> bool)
    (req : PricingRequest.t) (strategy : string) (w : Database) (q : PriceData.t) :
  default _calculate_default_price (price_adjustment_strategies !! strategy) req
  = inr q ->
  commit_accepts (pricing_history w) [history_row req q strategy] = false ->
  exists w' : Database,
    calculate commit_accepts req strategy w = (inl SQLAlchemyError, w')
    /\ pricing_history w' = pricing_history w
    /\ journal w'
       = journal w ++ [SessionOpened; RowAdded (history_row req q strategy);
                       CommitRejected; SessionClosed].
Proof.
  intros Hq Hrej.
  rewrite calculate_unfold, Hq. cbv zeta. rewrite Hrej.
  eexists. repeat split.
Qed.

Lemma storage_failure_propagates_witness :
  exists w' : Database,
    calculate always_rejects req_spec_example "default" empty_database
    = (inl SQLAlchemyError, w')
    /\ pricing_history w' = [].
Proof.
  destruct (default_price_shape req_spec_example 1.0) as (raw & base & Hq);
    [discriminate | reflexivity |].
  destruct (storage_failure_propagates always_rejects req_spec_example "default"
              empty_database _ Hq eq_refl) as (w' & Hcalc & Hrows & _).
  exists w'. split; [exact Hcalc | exact Hrows].
Defined.

(** C9: whatever [calculate] returns, the rows already in the table stay
    as they were, in place and in order.  When it returns a quote the
    table has grown by exactly the row of this call, the commit was
    accepted, and the journal shows one session, one add, one commit and
    the close; when it raises, the table is unchanged. *)
Theorem calculate_appends_one_row
    (commit_accepts : list PricingHistory.t -> list PricingHistory.t -> bool)
    (req : PricingRequest.t) (strategy : string) (w w' : Database)
    (r : result PriceData.t) :
  calculate commit_accepts req strategy w = (r, w') ->
  (forall q : PriceData.t, r = inr q ->
      pricing_history w' = pricing_history w ++ [history_row req q strategy]
      /\ length (pricing_history w') = S (length (pricing_history w))
      /\ commit_accepts (pricing_history w) [history_row req q strategy] = true
      /\ journal w'
         = journal w ++ [SessionOpened; RowAdded (history_row req q strategy);
                         Committed; SessionClosed])
  /\ (forall e : exn, r = inl e -> pricing_history w' = pricing_history w)
  /\ (forall (i : nat) (row : PricingHistory.t),
        pricing_history w !! i = Some row -> pricing_history w' !! i = Some row).
Proof.
  intros Hcalc. rewrite calculate_unfold in Hcalc.
  destruct (default _calculate_default_price
                    (price_adjustment_strategies !! strategy) req) as [e | q0].
  - inversion Hcalc; subst. split; [| split].
    + intros q Hr. discriminate.
    + intros e0 _. reflexivity.
    + intros i row Hrow. exact Hrow.
  - cbv zeta in Hcalc.
    destruct (commit_accepts (pricing_history w) [history_row req q0 strategy])
      eqn:Hacc; inversion Hcalc; subst; cbn [pricing_history journal].
    + split; [| split].
      * intros q Hr. injection Hr as <-.
        repeat split; [| exact Hacc].
        rewrite length_app. simpl. lia.
      * intros e Hr. discriminate.
      * intros i row Hrow. apply lookup_app_l_Some. exact Hrow.
    + split; [| split].
      * intros q Hr. discriminate.
      * intros e _. reflexivity.
      * intros i row Hrow. exact Hrow.
Qed.

Lemma calculate_appends_one_row_witness :
  exists (q : PriceData.t) (w' : Database),
    calculate always_accepts req_spec_example "aggressive" empty_database = (inr q, w')
    /\ length (pricing_history w') = 1%nat
    /\ journal w'
       = [SessionOpened; RowAdded (history_row req_spec_example q "aggressive");
          Committed; SessionClosed].
Proof.
  destruct (aggressive_price_shape req_spec_example) as (raw & base & Hq).
  match type of Hq with _ = inr ?q0 => set (q := q0) in Hq end.
  assert (exists w', calculate always_accepts req_spec_example "aggressive"
                               empty_database = (inr q, w')) as (w' & Hcalc).
  { rewrite calculate_unfold, registry_aggressive. cbn [from_option id].
    rewrite Hq. eexists. reflexivity. }
  destruct (calculate_appends_one_row always_accepts req_spec_example "aggressive"
              empty_database w' _ Hcalc) as (Hok & _ & _).
  destruct (Hok q eq_refl) as (_ & Hlen & _ & Hjournal).
  exists q, w'. split; [exact Hcalc |]. split; [exact Hlen | exact Hjournal].
Defined.

(** ** The factor resolver on lists of any length *)

Lemma factor_scan_elem {F : Type} (value : Z) (thresholds : list Z)
    (factors : list F) (f : F) :
  factor_scan value (combine thresholds factors) = Some f ->
  exists (i : nat) (th : Z),
    thresholds !! i = Some th /\ factors !! i = Some f /\ (value <= th)%Z.
Proof.
  revert factors.
  induction thresholds as [| t ts IH]; intros [| g gs] Hscan; try discriminate.
  simpl in Hscan. destruct (Z.leb_spec value t) as [Hle | Hgt].
  - injection Hscan as ->. exists 0%nat, t. repeat split. exact Hle.
  - destruct (IH gs Hscan) as (i & th & Hth & Hf & Hle).
    exists (S i), th. repeat split; assumption.
Qed.

Lemma last_item_last {F : Type} (factors : list F) :
  factors <> [] -> exists f, last_item factors = inr f /\ last factors = Some f.
Proof.
  induction factors as [| g gs IH]; intros Hne; [contradiction |].
  destruct gs as [| h hs].
  - exists g. split; reflexivity.
  - destruct IH as (f & Hitem & Hlast); [discriminate |].
    exists f. split; assumption.
Qed.

(** X1: [_factor] raises only for an empty list of factors, whatever the
    thresholds and the value, and then it is [IndexError]; for every
    other list it returns one of the factors. *)
Theorem factor_raises_iff_no_factors {F : Type}
    (value : Z) (thresholds : list Z) (factors : list F) :
  (factors = [] -> _factor value thresholds factors = inl IndexError)
  /\ (factors <> [] ->
      exists f, _factor value thresholds factors = inr f /\ f ∈ factors).
Proof.
  split.
  - intros ->. unfold _factor. rewrite combine_nil. reflexivity.
  - intros Hne. unfold _factor.
    destruct (factor_scan value (combine thresholds factors)) as [f |] eqn:Hscan.
    + exists f. split; [reflexivity |].
      destruct (factor_scan_elem _ _ _ _ Hscan) as (i & th & _ & Hf & _).
      apply list_elem_of_lookup. exists i. exact Hf.
    + destruct (last_item_last factors Hne) as (f & Hitem & Hlast).
      exists f. split; [exact Hitem |].
      rewrite last_lookup in Hlast.
      apply list_elem_of_lookup. eexists. exact Hlast.
Qed.

Lemma factor_raises_iff_no_factors_witness :
  _factor 5 [3; 7]%Z (@nil Q) = inl IndexError
  /\ exists f, _factor 5 [3; 7]%Z [0.85] = inr f /\ f ∈ [0.85].
Proof.
  destruct (factor_raises_iff_no_factors 5 [3; 7]%Z (@nil Q)) as [Hnil _].
  destruct (factor_raises_iff_no_factors 5 [3; 7]%Z [0.85]) as [_ Hcons].
  split; [apply Hnil; reflexivity | apply Hcons; discriminate].
Defined.

(** X2: With lists of unequal length: thresholds that have no factor at
    their position are never compared, and among the factors only those
    at the position of a threshold and the last one can be returned. *)
Theorem factor_mismatched_lengths {F : Type}
    (value : Z) (thresholds : list Z) (factors : list F) :
  _factor value thresholds factors
  = _factor value (take (length factors) thresholds) factors
  /\ (forall f : F,
        _factor value thresholds factors = inr f ->
        (exists (i : nat) (th : Z),
            thresholds !! i = Some th /\ factors !! i = Some f /\ (value <= th)%Z)
        \/ last factors = Some f).
Proof.
  split.
  - unfold _factor. rewrite <- combine_firstn_r. reflexivity.
  - intros f Hres. unfold _factor in Hres.
    destruct (factor_scan value (combine thresholds factors)) as [g |] eqn:Hscan.
    + injection Hres as <-. left. eapply factor_scan_elem. exact Hscan.
    + right. destruct factors as [| g gs]; [discriminate |].
      destruct (last_item_last (g :: gs)) as (h & Hitem & Hlast); [discriminate |].
      rewrite Hitem in Hres. injection Hres as <-. exact Hlast.
Qed.

Lemma factor_mismatched_lengths_witness :
  _factor 9 [3; 7; 8; 20]%Z ["low"; "mid"] = inr "mid"
  /\ last ["low"; "mid"] = Some "mid".
Proof.
  destruct (factor_mismatched_lengths 9 [3; 7; 8; 20]%Z ["low"; "mid"])
    as [Htake Hwhich].
  split; [rewrite Htake; reflexivity |].
  destruct (Hwhich "mid" eq_refl) as [(i & th & Hth & Hf & Hle) | Hlast];
    [| exact Hlast].
  exfalso. destruct i as [| [| i]]; simpl in Hth, Hf; try discriminate;
    injection Hth as <-; lia.
Defined.

Lemma filter_below_nil (value : Z) (thresholds : list Z) :
  Forall (fun th => (value <= th)%Z) thresholds ->
  List.filter (fun th => (th <? value)%Z) thresholds = [].
Proof.
  induction 1 as [| th ths Hth _ IH]; [reflexivity |].
  simpl. destruct (Z.ltb_spec th value); [lia | exact IH].
Qed.

(** X3: For thresholds in ascending order and one factor more than
    thresholds, [_factor] is the step function: it returns the factor
    whose position is the number of thresholds below the value. *)
Theorem factor_sorted_step {F : Type}
    (value : Z) (thresholds : list Z) (factors : list F) :
  StronglySorted Z.le thresholds ->
  length factors = S (length thresholds) ->
  exists f,
    factors !! length (List.filter (fun th => (th <? value)%Z) thresholds) = Some f
    /\ _factor value thresholds factors = inr f.
Proof.
  intros Hsorted. revert factors.
  induction Hsorted as [| t ts Hts IH Hall]; intros factors Hlen.
  - destruct factors as [| f [| g gs]]; try discriminate.
    exists f. split; reflexivity.
  - destruct factors as [| f fs]; [discriminate |].
    assert (length fs = S (length ts)) as Hlen' by (simpl in Hlen; lia).
    assert (fs <> []) as Hne by (destruct fs; [discriminate | congruence]).
    rewrite (factor_cons value t ts f fs Hne). simpl.
    destruct (Z.leb_spec value t) as [Hle | Hgt].
    + destruct (Z.ltb_spec t value) as [Hlt | _]; [lia |].
      rewrite filter_below_nil.
      * exists f. split; reflexivity.
      * eapply Forall_impl; [exact Hall |]. intros th Hth. simpl in Hth. lia.
    + destruct (Z.ltb_spec t value) as [_ | Hge]; [| lia].
      destruct (IH fs Hlen') as (g & Hg & Hres).
      exists g. split; [exact Hg | exact Hres].
Qed.

Lemma factor_sorted_step_witness :
  _factor 50 [10; 100]%Z [1.15; 1.0; 0.90] = inr 1.0
  /\ _factor 5 [7; 3; 9]%Z ["a"; "b"; "c"; "d"] <> inr "b".
Proof.
  split; [| discriminate].
  destruct (factor_sorted_step 50 [10; 100]%Z [1.15; 1.0; 0.90]) as (f & Hf & Hres).
  - repeat constructor; lia.
  - reflexivity.
  - injection Hf as <-. exact Hres.
Defined.

(** ** Range and order of the markups *)

Lemma markup_score_cases (ds : Z) :
  (1 <= ds <= 10)%Z ->
  ds = 1%Z \/ ds = 2%Z \/ ds = 3%Z \/ ds = 4%Z \/ ds = 5%Z
  \/ ds = 6%Z \/ ds = 7%Z \/ ds = 8%Z \/ ds = 9%Z \/ ds = 10%Z.
Proof. lia. Qed.

Ltac each_score H :=
  apply markup_score_cases in H;
  repeat (destruct H as [H | H]; [subst |]); [.. | subst].

Lemma markup_bounds (ds : Z) :
  0.15 <= _get_base_markup ds /\ _get_base_markup ds <= 0.75.
Proof.
  destruct (Z_le_dec 1 ds) as [Hlo | Hlo];
    [destruct (Z_le_dec ds 10) as [Hhi | Hhi] |].
  - assert (1 <= ds <= 10)%Z as H by lia. clear Hlo Hhi.
    each_score H; split; vm_compute; discriminate.
  - unfold _get_base_markup. rewrite markups_outside by lia.
    split; vm_compute; discriminate.
  - unfold _get_base_markup. rewrite markups_outside by lia.
    split; vm_compute; discriminate.
Qed.

Lemma markup_mono (a b : Z) :
  (1 <= a)%Z -> (a <= b)%Z -> (b <= 10)%Z ->
  _get_base_markup a <= _get_base_markup b.
Proof.
  intros Ha Hab Hb.
  assert (1 <= a <= 10)%Z as HA by lia.
  assert (1 <= b <= 10)%Z as HB by lia.
  clear Ha Hb.
  each_score HA; each_score HB; try (exfalso; lia);
    vm_compute; discriminate.
Qed.

(** X4: Every demand score, in range or not, gets a markup between 0.15 and
    0.75.  From score 1 to score 10 the markup never decreases, but a
    score above 10 gets less than score 10 does. *)
Theorem base_markup_range :
  (forall ds : Z, 0.15 <= _get_base_markup ds /\ _get_base_markup ds <= 0.75)
  /\ (forall a b : Z,
        (1 <= a)%Z -> (a <= b)%Z -> (b <= 10)%Z ->
        _get_base_markup a <= _get_base_markup b)
  /\ (forall ds : Z, (10 < ds)%Z -> _get_base_markup ds < _get_base_markup 10).
Proof.
  split; [| split].
  - exact markup_bounds.
  - exact markup_mono.
  - intros ds Hds. unfold _get_base_markup at 1.
    rewrite markups_outside by lia. reflexivity.
Qed.

Lemma base_markup_range_witness :
  _get_base_markup 3 <= _get_base_markup 8
  /\ _get_base_markup 11 < _get_base_markup 10.
Proof.
  destruct base_markup_range as (_ & Hmono & Hdrop).
  split; [apply Hmono; lia | apply Hdrop; lia].
Defined.

(** ** Order and equality of clamped, rounded prices *)

Lemma clamp_mono (lo x hi lo' x' hi' : Q) :
  lo <= lo' -> x <= x' -> hi <= hi' ->
  Py.max lo (Py.min x hi) <= Py.max lo' (Py.min x' hi').
Proof.
  intros Hlo Hx Hhi. unfold Py.max, Py.min, Py.gtb.
  destruct (Py.ltb hi x) eqn:E1; destruct (Py.ltb hi' x') eqn:E2;
    match goal with
    | |- context [Py.ltb lo ?a] => destruct (Py.ltb lo a) eqn:E3
    end;
    match goal with
    | |- context [Py.ltb lo' ?a] => destruct (Py.ltb lo' a) eqn:E4
    end;
    py_cmp; lra.
Qed.

Lemma demand_factor_pos (ds : Z) (a b c : Q) :
  0 < a -> 0 < b -> 0 < c ->
  0 < (if (ds <=? 3)%Z then a else if (ds <=? 7)%Z then b else c).
Proof.
  intros Ha Hb Hc. destruct (ds <=? 3)%Z; [exact Ha |].
  destruct (ds <=? 7)%Z; assumption.
Qed.

Lemma aggressive_price_value (req : PricingRequest.t) :
  _calculate_aggressive_price req
  = inr {| PriceData.product_id := product_id req;
           PriceData.dynamic_price :=
             Py.round2
               (Py.max (cost_price req * 1.05)
                  (Py.min
                     (cost_price req * (1 + _get_base_markup (demand_score req) + 0.1)
                      * (if (demand_score req <=? 3)%Z then 0.9
                         else if (demand_score req <=? 7)%Z then 1.1 else 1.4))
                     (competitor_price req * 1.1)));
           PriceData.base_price :=
             Py.round2
               (cost_price req * (1 + _get_base_markup (demand_score req) + 0.1));
           PriceData.strategy := "aggressive" |}.
Proof.
  unfold _calculate_aggressive_price. rewrite factor_two. reflexivity.
Qed.

Lemma conservative_price_value (req : PricingRequest.t) :
  _calculate_conservative_price req
  = inr {| PriceData.product_id := product_id req;
           PriceData.dynamic_price :=
             Py.round2
               (Py.max (cost_price req * 1.15)
                  (Py.min
                     (cost_price req * (1 + _get_base_markup (demand_score req) - 0.05)
                      * (if (demand_score req <=? 3)%Z then 0.8
                         else if (demand_score req <=? 7)%Z then 0.95 else 1.15))
                     (competitor_price req * 0.95)));
           PriceData.base_price :=
             Py.round2
               (cost_price req * (1 + _get_base_markup (demand_score req) - 0.05));
           PriceData.strategy := "conservative" |}.
Proof.
  unfold _calculate_conservative_price. rewrite factor_two. reflexivity.
Qed.

Lemma aggressive_price_mono (req req' : PricingRequest.t) (q q' : PriceData.t) :
  demand_score req = demand_score req' ->
  cost_price req <= cost_price req' ->
  competitor_price req <= competitor_price req' ->
  _calculate_aggressive_price req = inr q ->
  _calculate_aggressive_price req' = inr q' ->
  PriceData.dynamic_price q <= PriceData.dynamic_price q'
  /\ PriceData.base_price q <= PriceData.base_price q'.
Proof.
  intros Hds Hcost Hcomp Hq Hq'.
  rewrite aggressive_price_value in Hq, Hq'.
  injection Hq as <-. injection Hq' as <-.
  cbn [PriceData.dynamic_price PriceData.base_price]. rewrite <- Hds.
  destruct (markup_bounds (demand_score req)) as [Hm _].
  pose proof (demand_factor_pos (demand_score req) 0.9 1.1 1.4
                eq_refl eq_refl eq_refl) as Hd.
  assert (cost_price req * (1 + _get_base_markup (demand_score req) + 0.1)
          <= cost_price req' * (1 + _get_base_markup (demand_score req) + 0.1))
    as Hbase by (apply Qmult_le_compat_r; lra).
  split; apply round2_mono; [| exact Hbase].
  apply clamp_mono; [lra | | lra].
  apply Qmult_le_compat_r; [exact Hbase | lra].
Qed.

Lemma conservative_price_mono (req req' : PricingRequest.t) (q q' : PriceData.t) :
  demand_score req = demand_score req' ->
  cost_price req <= cost_price req' ->
  competitor_price req <= competitor_price req' ->
  _calculate_conservative_price req = inr q ->
  _calculate_conservative_price req' = inr q' ->
  PriceData.dynamic_price q <= PriceData.dynamic_price q'
  /\ PriceData.base_price q <= PriceData.base_price q'.
Proof.
  intros Hds Hcost Hcomp Hq Hq'.
  rewrite conservative_price_value in Hq, Hq'.
  injection Hq as <-. injection Hq' as <-.
  cbn [PriceData.dynamic_price PriceData.base_price]. rewrite <- Hds.
  destruct (markup_bounds (demand_score req)) as [Hm _].
  pose proof (demand_factor_pos (demand_score req) 0.8 0.95 1.15
                eq_refl eq_refl eq_refl) as Hd.
  assert (cost_price req * (1 + _get_base_markup (demand_score req) - 0.05)
          <= cost_price req' * (1 + _get_base_markup (demand_score req) - 0.05))
    as Hbase by (apply Qmult_le_compat_r; lra).
  split; apply round2_mono; [| exact Hbase].
  apply clamp_mono; [lra | | lra].
  apply Qmult_le_compat_r; [exact Hbase | lra].
Qed.

(** ** What the aggressive and the conservative calculator depend on *)

(** X5: Under the aggressive and the conservative strategy, a request with a
    cost price and a competitor price that are not lower, and the same
    demand score, never gets a lower dynamic price or base price. *)
Theorem simple_strategies_monotone (req req' : PricingRequest.t) :
  demand_score req = demand_score req' ->
  cost_price req <= cost_price req' ->
  competitor_price req <= competitor_price req' ->
  exists qa qa' qc qc' : PriceData.t,
    _calculate_aggressive_price req = inr qa
    /\ _calculate_aggressive_price req' = inr qa'
    /\ PriceData.dynamic_price qa <= PriceData.dynamic_price qa'
    /\ PriceData.base_price qa <= PriceData.base_price qa'
    /\ _calculate_conservative_price req = inr qc
    /\ _calculate_conservative_price req' = inr qc'
    /\ PriceData.dynamic_price qc <= PriceData.dynamic_price qc'
    /\ PriceData.base_price qc <= PriceData.base_price qc'.
Proof.
  intros Hds Hcost Hcomp.
  pose proof (aggressive_price_value req) as Ha.
  pose proof (aggressive_price_value req') as Ha'.
  pose proof (conservative_price_value req) as Hc.
  pose proof (conservative_price_value req') as Hc'.
  destruct (aggressive_price_mono req req' _ _ Hds Hcost Hcomp Ha Ha') as [Hda Hba].
  destruct (conservative_price_mono req req' _ _ Hds Hcost Hcomp Hc Hc') as [Hdc Hbc].
  do 4 eexists.
  split; [exact Ha |]. split; [exact Ha' |].
  split; [exact Hda |]. split; [exact Hba |].
  split; [exact Hc |]. split; [exact Hc' |].
  split; [exact Hdc | exact Hbc].
Qed.

Lemma simple_strategies_monotone_witness :
  exists qa qa' : PriceData.t,
    _calculate_aggressive_price req_spec_example = inr qa
    /\ _calculate_aggressive_price req_cost_above_competitor = inr qa'
    /\ PriceData.dynamic_price qa <= PriceData.dynamic_price qa'.
Proof.
  destruct (simple_strategies_monotone req_spec_example req_cost_above_competitor)
    as (qa & qa' & _ & _ & Ha & Ha' & Hle & _);
    [reflexivity | vm_compute; discriminate | vm_compute; discriminate |].
  exists qa, qa'. split; [exact Ha |]. split; [exact Ha' | exact Hle].
Defined.

(** X6: The aggressive and the conservative calculator read only the cost
    price, the demand score and the competitor price: two requests that
    agree on these three get the same prices, whatever their inventory,
    customer segment and seasonality factor (a missing one included). *)
Theorem simple_strategies_ignore_other_fields (req req' : PricingRequest.t) :
  demand_score req = demand_score req' ->
  cost_price req == cost_price req' ->
  competitor_price req == competitor_price req' ->
  exists qa qa' qc qc' : PriceData.t,
    _calculate_aggressive_price req = inr qa
    /\ _calculate_aggressive_price req' = inr qa'
    /\ PriceData.dynamic_price qa == PriceData.dynamic_price qa'
    /\ PriceData.base_price qa == PriceData.base_price qa'
    /\ _calculate_conservative_price req = inr qc
    /\ _calculate_conservative_price req' = inr qc'
    /\ PriceData.dynamic_price qc == PriceData.dynamic_price qc'
    /\ PriceData.base_price qc == PriceData.base_price qc'.
Proof.
  intros Hds Hcost Hcomp.
  pose proof (aggressive_price_value req) as Ha.
  pose proof (aggressive_price_value req') as Ha'.
  pose proof (conservative_price_value req) as Hc.
  pose proof (conservative_price_value req') as Hc'.
  assert (cost_price req <= cost_price req') as Hc1 by lra.
  assert (cost_price req' <= cost_price req) as Hc2 by lra.
  assert (competitor_price req <= competitor_price req') as Hk1 by lra.
  assert (competitor_price req' <= competitor_price req) as Hk2 by lra.
  destruct (aggressive_price_mono req req' _ _ Hds Hc1 Hk1 Ha Ha') as [Hda Hba].
  destruct (aggressive_price_mono req' req _ _ (eq_sym Hds) Hc2 Hk2 Ha' Ha)
    as [Hda' Hba'].
  destruct (conservative_price_mono req req' _ _ Hds Hc1 Hk1 Hc Hc') as [Hdc Hbc].
  destruct (conservative_price_mono req' req _ _ (eq_sym Hds) Hc2 Hk2 Hc' Hc)
    as [Hdc' Hbc'].
  do 4 eexists.
  split; [exact Ha |]. split; [exact Ha' |].
  split; [apply Qle_antisym; assumption |].
  split; [apply Qle_antisym; assumption |].
  split; [exact Hc |]. split; [exact Hc' |].
  split; apply Qle_antisym; assumption.
Qed.

Lemma simple_strategies_ignore_other_fields_witness :
  exists qa qa' : PriceData.t,
    _calculate_aggressive_price req_spec_example = inr qa
    /\ _calculate_aggressive_price req_no_seasonality = inr qa'
    /\ PriceData.dynamic_price qa == PriceData.dynamic_price qa'.
Proof.
  destruct (simple_strategies_ignore_other_fields req_spec_example req_no_seasonality)
    as (qa & qa' & _ & _ & Ha & Ha' & Hd & _);
    [reflexivity | reflexivity | reflexivity |].
  exists qa, qa'. split; [exact Ha |]. split; [exact Ha' | exact Hd].
Defined.

(** ** Outcomes of the default calculator *)

Lemma default_price_value (req : PricingRequest.t) (s : Q) :
  ~ competitor_price req == 0 ->
  seasonality_factor req = Some s ->
  let base := cost_price req * (1 + _get_base_markup (demand_score req)) in
  let demand_factor :=
    if (demand_score req <=? 3)%Z then 0.85
    else if (demand_score req <=? 7)%Z then 1.0 else 1.25 in
  let inv_factor :=
    if (inventory req <=? 10)%Z then 1.15
    else if (inventory req <=? 100)%Z then 1.0 else 0.90 in
  let comp_ratio := base / competitor_price req in
  let comp_factor :=
    if Py.gtb comp_ratio 1.1 then 0.95
    else if Py.ltb comp_ratio 0.9 then 1.05 else 1.0 in
  _calculate_default_price req
  = inr {| PriceData.product_id := product_id req;
           PriceData.dynamic_price :=
             Py.round2
               (Py.max (cost_price req * 1.1)
                  (Py.min
                     (base * demand_factor * inv_factor * comp_factor * s
                      * seg_factor_of (customer_segment req))
                     (competitor_price req * 1.2)));
           PriceData.base_price := Py.round2 base;
           PriceData.strategy := "default" |}.
Proof.
  intros Hcomp Hseason. unfold _calculate_default_price.
  rewrite !factor_two. unfold Py.div.
  destruct (Qeq_bool (competitor_price req) 0) eqn:E.
  { apply Qeq_bool_iff in E. contradiction. }
  rewrite Hseason. reflexivity.
Qed.

(** X7: The default calculator returns a quote exactly when the competitor
    price is not zero and the seasonality factor is a number.  It raises
    [TypeError] exactly when the competitor price is not zero and the
    seasonality factor is [None]; with both a zero competitor price and
    no seasonality factor the division comes first.  It raises nothing
    else. *)
Theorem default_returns_or_raises (req : PricingRequest.t) :
  (_calculate_default_price req = inl TypeError
   <-> ~ competitor_price req == 0 /\ seasonality_factor req = None)
  /\ ((exists q, _calculate_default_price req = inr q)
      <-> ~ competitor_price req == 0 /\ seasonality_factor req <> None)
  /\ (competitor_price req == 0 -> seasonality_factor req = None ->
      _calculate_default_price req = inl ZeroDivisionError)
  /\ (forall e : exn,
        _calculate_default_price req = inl e ->
        e = ZeroDivisionError \/ e = TypeError).
Proof.
  unfold _calculate_default_price. rewrite !factor_two. unfold Py.div.
  destruct (Qeq_bool (competitor_price req) 0) eqn:E.
  - apply Qeq_bool_iff in E. run_result.
    split; [| split; [| split]].
    + split; [discriminate | intros [Hnz _]; contradiction].
    + split; [intros [q Hq]; discriminate | intros [Hnz _]; contradiction].
    + reflexivity.
    + intros e He. injection He as <-. left. reflexivity.
  - assert (~ competitor_price req == 0) as Hnz.
    { intros Hz. apply Qeq_bool_iff in Hz. congruence. }
    destruct (seasonality_factor req) as [s |]; run_result.
    + split; [| split; [| split]].
      * split; [discriminate | intros [_ H]; discriminate].
      * split; [intros _; split; [exact Hnz | discriminate] |].
        intros _. eexists. reflexivity.
      * intros Hz. contradiction.
      * intros e He. discriminate.
    + split; [| split; [| split]].
      * split; [intros _; split; [exact Hnz | reflexivity] | reflexivity].
      * split; [intros [q Hq]; discriminate | intros [_ H]; contradiction].
      * intros Hz. contradiction.
      * intros e He. injection He as <-. right. reflexivity.
Qed.

Lemma default_returns_or_raises_witness :
  _calculate_default_price req_no_seasonality = inl TypeError
  /\ (exists q, _calculate_default_price req_spec_example = inr q)
  /\ _calculate_default_price
       {| product_id := "P9"; cost_price := 10; demand_score := 5; inventory := 50;
          competitor_price := 0; customer_segment := None;
          seasonality_factor := None |}
     = inl ZeroDivisionError.
Proof.
  split; [| split].
  - apply (default_returns_or_raises req_no_seasonality). split; [discriminate | reflexivity].
  - apply (default_returns_or_raises req_spec_example). split; discriminate.
  - apply default_returns_or_raises; reflexivity.
Defined.

(** ** Customer segments *)

Lemma seg_factor_standard (segment : option string) :
  (forall s, segment = Some s -> s <> "premium" /\ s <> "budget" /\ s <> "loyalty") ->
  seg_factor_of segment = 1.0.
Proof.
  intros H. destruct segment as [s |]; [| reflexivity].
  destruct (H s eq_refl) as (Hp & Hb & Hl).
  destruct (decide (s = "standard")) as [-> | Hs]; [reflexivity |].
  unfold seg_factor_of, seg_factors.
  rewrite lookup_insert_ne by congruence.
  rewrite lookup_insert_ne by congruence.
  rewrite lookup_insert_ne by congruence.
  rewrite lookup_singleton_ne by congruence. reflexivity.
Qed.

(** X8: A segment that the default calculator does not know, and a missing
    one, are priced as ["standard"]: the outcome, quote or exception, is
    the one of the same request with segment ["standard"]. *)
Theorem unknown_segment_is_standard (req : PricingRequest.t) :
  (forall s, customer_segment req = Some s ->
             s <> "premium" /\ s <> "budget" /\ s <> "loyalty") ->
  _calculate_default_price req
  = _calculate_default_price
      {| product_id := product_id req;
         cost_price := cost_price req;
         demand_score := demand_score req;
         inventory := inventory req;
         competitor_price := competitor_price req;
         customer_segment := Some "standard";
         seasonality_factor := seasonality_factor req |}.
Proof.
  intros H. unfold _calculate_default_price.
  cbn [product_id cost_price demand_score inventory competitor_price
       customer_segment seasonality_factor].
  rewrite (seg_factor_standard (customer_segment req) H).
  reflexivity.
Qed.

Lemma unknown_segment_is_standard_witness :
  _calculate_default_price req_no_seasonality
  = _calculate_default_price
      {| product_id := "P8"; cost_price := 10; demand_score := 5; inventory := 50;
         competitor_price := 20; customer_segment := Some "standard";
         seasonality_factor := None |}
  /\ _calculate_default_price
       {| product_id := "P1"; cost_price := 10; demand_score := 5; inventory := 50;
          competitor_price := 20; customer_segment := Some "vip";
          seasonality_factor := Some 1.0 |}
     = _calculate_default_price
         {| product_id := "P1"; cost_price := 10; demand_score := 5; inventory := 50;
            competitor_price := 20; customer_segment := Some "standard";
            seasonality_factor := Some 1.0 |}.
Proof.
  split.
  - apply (unknown_segment_is_standard req_no_seasonality). intros s Hs. discriminate.
  - apply (unknown_segment_is_standard
             {| product_id := "P1"; cost_price := 10; demand_score := 5;
                inventory := 50; competitor_price := 20;
                customer_segment := Some "vip"; seasonality_factor := Some 1.0 |}).
    intros s Hs. injection Hs as <-. repeat split; discriminate.
Defined.

(** ** Prices against the cost *)

Lemma rounded_clamp_above_cost (cost k x hi : Q) :
  0 <= cost -> 1 <= k -> Py.round2 cost == cost ->
  cost <= Py.round2 (Py.max (cost * k) (Py.min x hi)).
Proof.
  intros Hcost Hk Hcents.
  assert (cost <= cost * k) as Hfloor.
  { assert (0 <= cost * (k - 1)) as H by (apply Qmult_le_0_compat; lra).
    lra. }
  pose proof (round2_mono _ _ Hfloor) as H1.
  pose proof (round2_mono _ _ (max_lower (cost * k) (Py.min x hi))) as H2.
  lra.
Qed.

(** X9: No strategy quotes below cost: for a cost price that is not negative
    and has at most two decimals, the dynamic price of every calculator
    that returns is at least the cost price. *)
Theorem never_below_cost (req : PricingRequest.t) :
  0 <= cost_price req ->
  Py.round2 (cost_price req) == cost_price req ->
  (forall s : Q,
      ~ competitor_price req == 0 -> seasonality_factor req = Some s ->
      exists q, _calculate_default_price req = inr q
                /\ cost_price req <= PriceData.dynamic_price q)
  /\ (exists q, _calculate_aggressive_price req = inr q
                /\ cost_price req <= PriceData.dynamic_price q)
  /\ (exists q, _calculate_conservative_price req = inr q
                /\ cost_price req <= PriceData.dynamic_price q).
Proof.
  intros Hcost Hcents. split; [| split].
  - intros s Hcomp Hseason.
    destruct (default_price_shape req s Hcomp Hseason) as (raw & base & Hq).
    eexists. split; [exact Hq |]. cbn [PriceData.dynamic_price].
    apply rounded_clamp_above_cost; [exact Hcost | lra | exact Hcents].
  - destruct (aggressive_price_shape req) as (raw & base & Hq).
    eexists. split; [exact Hq |]. cbn [PriceData.dynamic_price].
    apply rounded_clamp_above_cost; [exact Hcost | lra | exact Hcents].
  - destruct (conservative_price_shape req) as (raw & base & Hq).
    eexists. split; [exact Hq |]. cbn [PriceData.dynamic_price].
    apply rounded_clamp_above_cost; [exact Hcost | lra | exact Hcents].
Qed.

Lemma never_below_cost_witness :
  (exists q, _calculate_default_price req_cost_above_competitor = inr q
             /\ 100 <= PriceData.dynamic_price q)
  /\ (exists q, _calculate_conservative_price req_inverted_not_in_cents = inr q
                /\ 10.01 <= PriceData.dynamic_price q).
Proof.
  split.
  - destruct (never_below_cost req_cost_above_competitor) as (Hd & _ & _);
      [vm_compute; discriminate | reflexivity |].
    apply (Hd 1.0); [discriminate | reflexivity].
  - destruct (never_below_cost req_inverted_not_in_cents) as (_ & _ & Hc);
      [vm_compute; discriminate | reflexivity |].
    exact Hc.
Defined.

(** X10: For a cost price that is not negative the three base prices are in
    order: conservative, then default, then aggressive. *)
Theorem base_price_order (req : PricingRequest.t) (s : Q) :
  0 <= cost_price req ->
  ~ competitor_price req == 0 ->
  seasonality_factor req = Some s ->
  exists qc qd qa : PriceData.t,
    _calculate_conservative_price req = inr qc
    /\ _calculate_default_price req = inr qd
    /\ _calculate_aggressive_price req = inr qa
    /\ PriceData.base_price qc <= PriceData.base_price qd
    /\ PriceData.base_price qd <= PriceData.base_price qa.
Proof.
  intros Hcost Hcomp Hseason.
  pose proof (conservative_price_value req) as Hc.
  pose proof (default_price_value req s Hcomp Hseason) as Hd.
  pose proof (aggressive_price_value req) as Ha.
  cbv zeta in Hd.
  do 3 eexists.
  split; [exact Hc |]. split; [exact Hd |]. split; [exact Ha |].
  cbn [PriceData.base_price].
  set (m := _get_base_markup (demand_score req)).
  assert (0 <= cost_price req * 0.05) as H1 by (apply Qmult_le_0_compat; lra).
  assert (0 <= cost_price req * 0.1) as H2 by (apply Qmult_le_0_compat; lra).
  split; apply round2_mono; lra.
Qed.

Lemma base_price_order_witness :
  exists qc qd qa : PriceData.t,
    _calculate_conservative_price req_spec_example = inr qc
    /\ _calculate_default_price req_spec_example = inr qd
    /\ _calculate_aggressive_price req_spec_example = inr qa
    /\ PriceData.base_price qc <= PriceData.base_price qd
    /\ PriceData.base_price qd <= PriceData.base_price qa.
Proof.
  apply (base_price_order req_spec_example 1.0);
    [vm_compute; discriminate | discriminate | reflexivity].
Defined.

(** ** The strategy tag of a returned quote *)

(** X11: A quote returned by [calculate] is the one of the calculator that
    ran and carries that calculator's name and the request's product id.
    The tag is the requested strategy name exactly when that name is one
    of the three registered ones. *)
Theorem quote_strategy_tag
    (commit_accepts : list PricingHistory.t -> list PricingHistory.t -> bool)
    (req : PricingRequest.t) (strategy : string) (w w' : Database)
    (q : PriceData.t) :
  calculate commit_accepts req strategy w = (inr q, w') ->
  PriceData.product_id q = product_id req
  /\ (strategy = "aggressive" ->
      _calculate_aggressive_price req = inr q
      /\ PriceData.strategy q = "aggressive")
  /\ (strategy = "conservative" ->
      _calculate_conservative_price req = inr q
      /\ PriceData.strategy q = "conservative")
  /\ (strategy <> "aggressive" -> strategy <> "conservative" ->
      _calculate_default_price req = inr q /\ PriceData.strategy q = "default")
  /\ (PriceData.strategy q = strategy
      <-> strategy = "default" \/ strategy = "aggressive"
          \/ strategy = "conservative").
Proof.
  intros Hcalc. rewrite calculate_unfold in Hcalc.
  assert (forall calc : PricingRequest.t -> result PriceData.t,
             default _calculate_default_price
                     (price_adjustment_strategies !! strategy) = calc ->
             calc req = inr q) as Hran.
  { intros calc <-.
    destruct (default _calculate_default_price
                      (price_adjustment_strategies !! strategy) req) as [e | q0];
      [inversion Hcalc |].
    cbv zeta in Hcalc. destruct (commit_accepts _ _); inversion Hcalc; reflexivity. }
  clear Hcalc.
  destruct (decide (strategy = "aggressive")) as [-> | Ha].
  { pose proof (Hran _ eq_refl) as Hq. cbn in Hq.
    pose proof Hq as Hv. rewrite aggressive_price_value in Hv.
    injection Hv as <-. cbn [PriceData.product_id PriceData.strategy].
    repeat split; try discriminate; try congruence; auto. }
  destruct (decide (strategy = "conservative")) as [-> | Hc].
  { pose proof (Hran _ eq_refl) as Hq. cbn in Hq.
    pose proof Hq as Hv. rewrite conservative_price_value in Hv.
    injection Hv as <-. cbn [PriceData.product_id PriceData.strategy].
    repeat split; try discriminate; try congruence; auto. }
  pose proof (Hran _ (selects_default strategy Ha Hc)) as Hq.
  assert (PriceData.product_id q = product_id req
          /\ PriceData.strategy q = "default") as [Hid Htag].
  { destruct (default_outcome req) as [[_ H] | [(_ & _ & H) | (Hnz & _)]];
      try (rewrite H in Hq; discriminate).
    destruct (seasonality_factor req) as [s |] eqn:Hs.
    - destruct (default_price_shape req s Hnz Hs) as (raw & base & Hv).
      rewrite Hv in Hq. injection Hq as <-. split; reflexivity.
    - exfalso. revert Hq. unfold _calculate_default_price.
      rewrite !factor_two, Hs. unfold Py.div.
      destruct (Qeq_bool (competitor_price req) 0); discriminate. }
  split; [exact Hid |].
  split; [intros; contradiction |].
  split; [intros; contradiction |].
  split; [intros _ _; split; [exact Hq | exact Htag] |].
  rewrite Htag. split.
  - intros <-. left. reflexivity.
  - intros [-> | [-> | ->]]; [reflexivity | contradiction | contradiction].
Qed.

Lemma quote_strategy_tag_witness :
  exists (q : PriceData.t) (w' : Database),
    calculate always_accepts req_spec_example "AGGRESSIVE" empty_database
    = (inr q, w')
    /\ PriceData.strategy q = "default"
    /\ PriceData.strategy q <> "AGGRESSIVE".
Proof.
  destruct (calculate always_accepts req_spec_example "AGGRESSIVE" empty_database)
    as [[e | q] w'] eqn:Hcalc; [vm_compute in Hcalc; discriminate |].
  destruct (quote_strategy_tag always_accepts req_spec_example "AGGRESSIVE"
              empty_database w' q Hcalc) as (_ & _ & _ & Hdef & Hiff).
  destruct Hdef as [_ Htag]; [discriminate | discriminate |].
  exists q, w'. split; [reflexivity |]. split; [exact Htag |].
  intros Heq. apply Hiff in Heq. destruct Heq as [H | [H | H]]; discriminate.
Defined.

(** ** A run of the price endpoint *)

Lemma open_sessions_app (a b : list db_event) :
  open_sessions (a ++ b) = (open_sessions a + open_sessions b)%Z.
Proof.
  induction a as [| ev a IH]; [reflexivity |].
  destruct ev; simpl; rewrite IH; lia.
Qed.

Lemma default_quote_tag (req : PricingRequest.t) (q : PriceData.t) :
  _calculate_default_price req = inr q -> PriceData.strategy q = "default".
Proof.
  intros Hq.
  destruct (default_outcome req) as [[_ H] | [(_ & _ & H) | (Hnz & _)]];
    try (rewrite H in Hq; discriminate).
  destruct (seasonality_factor req) as [s |] eqn:Hs.
  - destruct (default_price_shape req s Hnz Hs) as (raw & base & Hv).
    rewrite Hv in Hq. injection Hq as <-. reflexivity.
  - exfalso. revert Hq. unfold _calculate_default_price.
    rewrite !factor_two, Hs. unfold Py.div.
    destruct (Qeq_bool (competitor_price req) 0); discriminate.
Qed.

Lemma calculate_price_step
    (commit_accepts : list PricingHistory.t -> list PricingHistory.t -> bool)
    (request : PricingRequest.t) (w w' : Database) (r : result PriceData.t) :
  calculate_price commit_accepts request w = (r, w') ->
  (exists added : list PricingHistory.t,
      pricing_history w' = pricing_history w ++ added
      /\ length added = (if is_quote r then 1 else 0)%nat
      /\ Forall (fun row => PricingHistory.strategy_used row = "default") added)
  /\ open_sessions (journal w') = open_sessions (journal w)
  /\ (forall q, r = inr q ->
        _calculate_default_price request = inr q
        /\ PriceData.strategy q = "default").
Proof.
  unfold calculate_price. intros Hcalc.
  assert (forall q, r = inr q ->
            _calculate_default_price request = inr q
            /\ PriceData.strategy q = "default") as Hquote.
  { intros q ->.
    rewrite calculate_unfold, registry_default in Hcalc.
    cbn [from_option id] in Hcalc.
    destruct (_calculate_default_price request) as [e | q0] eqn:Hq0;
      [inversion Hcalc |].
    cbv zeta in Hcalc. destruct (commit_accepts _ _); inversion Hcalc; subst.
    split; [reflexivity | exact (default_quote_tag request q Hq0)]. }
  split; [| split; [| exact Hquote]];
    rewrite calculate_unfold, registry_default in Hcalc;
    cbn [from_option id] in Hcalc;
    destruct (_calculate_default_price request) as [e | q0].
  - inversion Hcalc; subst. exists []. rewrite app_nil_r. repeat split. constructor.
  - cbv zeta in Hcalc. destruct (commit_accepts _ _); inversion Hcalc; subst.
    + exists [history_row request q0 "default"]. repeat split.
      constructor; [reflexivity | constructor].
    + exists []. cbn [pricing_history]. rewrite app_nil_r. repeat split. constructor.
  - inversion Hcalc; subst. reflexivity.
  - cbv zeta in Hcalc. destruct (commit_accepts _ _); inversion Hcalc; subst;
      cbn [journal]; rewrite open_sessions_app; simpl; lia.
Qed.

(** X12: Any run of requests through the price endpoint: every returned quote
    is the default calculator's for its request; the table grows by
    exactly one row per returned quote, after the rows it had, and each
    new row records the strategy ["default"]; and every session opened
    during the run has been closed, also for the requests that failed. *)
Theorem serve_invariant
    (commit_accepts : list PricingHistory.t -> list PricingHistory.t -> bool)
    (requests : list PricingRequest.t) (w w' : Database)
    (rs : list (result PriceData.t)) :
  serve commit_accepts requests w = (rs, w') ->
  Forall2 (fun request r =>
             forall q, r = inr q ->
                       _calculate_default_price request = inr q
                       /\ PriceData.strategy q = "default") requests rs
  /\ (exists added : list PricingHistory.t,
        pricing_history w' = pricing_history w ++ added
        /\ length added = length (List.filter is_quote rs)
        /\ Forall (fun row => PricingHistory.strategy_used row = "default") added)
  /\ open_sessions (journal w') = open_sessions (journal w).
Proof.
  revert w w' rs.
  induction requests as [| request rest IH]; intros w w' rs Hserve.
  - injection Hserve as <- <-.
    split; [constructor |]. split; [| reflexivity].
    exists []. rewrite app_nil_r. repeat split. constructor.
  - simpl in Hserve.
    destruct (calculate_price commit_accepts request w) as [r w1] eqn:Hstep.
    destruct (serve commit_accepts rest w1) as [rs1 w2] eqn:Hrest.
    injection Hserve as <- <-.
    destruct (calculate_price_step _ _ _ _ _ Hstep)
      as ((added1 & Hrows1 & Hlen1 & Hall1) & Hopen1 & Hquote1).
    destruct (IH _ _ _ Hrest) as (Hquotes & (added2 & Hrows2 & Hlen2 & Hall2) & Hopen2).
    split; [constructor; assumption |]. split; [| congruence].
    exists (added1 ++ added2). split; [| split].
    + rewrite Hrows2, Hrows1, app_assoc. reflexivity.
    + rewrite length_app, Hlen1, Hlen2. simpl.
      destruct r; reflexivity.
    + apply Forall_app. split; assumption.
Qed.

Lemma serve_invariant_witness :
  exists (rs : list (result PriceData.t)) (w' : Database),
    serve always_accepts [req_spec_example; req_zero_competitor; req_spec_example]
          empty_database = (rs, w')
    /\ length (pricing_history w') = 2%nat
    /\ open_sessions (journal w') = 0%Z.
Proof.
  destruct (serve always_accepts
              [req_spec_example; req_zero_competitor; req_spec_example]
              empty_database) as [rs w'] eqn:Hserve.
  destruct (serve_invariant _ _ _ _ _ Hserve)
    as (_ & (added & Hrows & Hlen & _) & Hopen).
  exists rs, w'. split; [reflexivity |]. split; [| exact Hopen].
  rewrite Hrows, length_app, Hlen. vm_compute in Hserve. injection Hserve as <- _.
  reflexivity.
Defined.

(** ** The competitor monitor *)

Lemma mock_price_range (draw : Q) :
  0 <= draw -> draw <= 1 ->
  40 <= Py.round2 (uniform 40 60 draw) /\ Py.round2 (uniform 40 60 draw) <= 60.
Proof.
  intros Hlo Hhi. unfold uniform.
  assert (40 <= 40 + (60 - 40) * draw) as H1 by lra.
  assert (40 + (60 - 40) * draw <= 60) as H2 by lra.
  apply round2_mono in H1. apply round2_mono in H2.
  assert (Py.round2 40 == 40) as E1 by reflexivity.
  assert (Py.round2 60 == 60) as E2 by reflexivity.
  split; lra.
Qed.

Lemma monitor_loop_rows (random : nat -> Q) (names : list string) :
  (forall i : nat, 0 <= random i /\ random i < 1) ->
  forall (n : nat) (pending : list CompetitorPrice.t),
  exists added : list CompetitorPrice.t,
    monitor_loop random n names pending = pending ++ added
    /\ map CompetitorPrice.competitor_name added = names
    /\ Forall (fun row =>
                 CompetitorPrice.product_id row = "PROD-001"
                 /\ CompetitorPrice.is_active row = true
                 /\ 40 <= CompetitorPrice.price row
                 /\ CompetitorPrice.price row <= 60) added
    /\ (forall (i : nat) (row : CompetitorPrice.t),
          added !! i = Some row ->
          CompetitorPrice.price row = Py.round2 (uniform 40 60 (random (n + i)%nat))).
Proof.
  intros Hdraws.
  induction names as [| competitor rest IH]; intros n pending.
  - exists []. simpl. rewrite app_nil_r. repeat split; [constructor |].
    intros i row Hrow. destruct i; discriminate.
  - simpl.
    destruct (IH (S n)
                (pending ++ [ {| CompetitorPrice.product_id := "PROD-001";
                                 CompetitorPrice.competitor_name := competitor;
                                 CompetitorPrice.price :=
                                   Py.round2 (uniform 40 60 (random n));
                                 CompetitorPrice.is_active := true |} ]))
      as (added & Hloop & Hnames & Hall & Hprice).
    eexists (_ :: added). split; [| split; [| split]].
    + rewrite Hloop, <- app_assoc. reflexivity.
    + simpl. rewrite Hnames. reflexivity.
    + constructor; [| exact Hall].
      cbn [CompetitorPrice.product_id CompetitorPrice.is_active CompetitorPrice.price].
      destruct (Hdraws n) as [Hlo Hhi].
      destruct (mock_price_range (random n)) as [H1 H2]; [lra | lra |].
      repeat split; assumption.
    + intros i row Hrow. destruct i as [| i].
      * injection Hrow as <-. rewrite Nat.add_0_r. reflexivity.
      * simpl in Hrow. rewrite (Hprice i row Hrow).
        replace (n + S i)%nat with (S n + i)%nat by lia. reflexivity.
Qed.

(** X13: One run of the competitor monitor either adds five rows after the
    rows of [competitor_prices], one per competitor in the order of the
    list, each for product ["PROD-001"], active, and with a price between
    40 and 60 inclusive that is the rounded draw of its turn; or it ends
    with the storage exception and the table as it was. *)
Theorem monitor_competitors_rows
    (commit_accepts : list CompetitorPrice.t -> list CompetitorPrice.t -> bool)
    (random : nat -> Q) (n : nat)
    (competitor_prices table' : list CompetitorPrice.t) (r : result unit) :
  (forall i : nat, 0 <= random i /\ random i < 1) ->
  monitor_competitors commit_accepts random n competitor_prices = (r, table') ->
  (r = inr tt ->
   exists added : list CompetitorPrice.t,
     table' = competitor_prices ++ added
     /\ length added = 5%nat
     /\ map CompetitorPrice.competitor_name added = competitors
     /\ Forall (fun row =>
                  CompetitorPrice.product_id row = "PROD-001"
                  /\ CompetitorPrice.is_active row = true
                  /\ 40 <= CompetitorPrice.price row
                  /\ CompetitorPrice.price row <= 60) added
     /\ (forall (i : nat) (row : CompetitorPrice.t),
           added !! i = Some row ->
           CompetitorPrice.price row
           = Py.round2 (uniform 40 60 (random (n + i)%nat))))
  /\ (forall e : exn, r = inl e -> e = SQLAlchemyError /\ table' = competitor_prices).
Proof.
  intros Hdraws Hrun. unfold monitor_competitors in Hrun. cbv zeta in Hrun.
  destruct (monitor_loop_rows random competitors Hdraws n [])
    as (added & Hloop & Hnames & Hall & Hprice).
  rewrite Hloop in Hrun. cbn [app] in Hrun.
  destruct (commit_accepts competitor_prices added); inversion Hrun; subst.
  - split; [| intros e He; discriminate].
    intros _. exists added. repeat split; try assumption.
    rewrite <- (length_map CompetitorPrice.competitor_name), Hnames. reflexivity.
  - split; [intros He; discriminate |].
    intros e He. injection He as <-. split; reflexivity.
Qed.

Lemma monitor_competitors_rows_witness :
  exists table' : list CompetitorPrice.t,
    monitor_competitors (fun _ _ => true)
                        (fun i => if Nat.even i then 0.25 else 0.9999) 0 []
    = (inr tt, table')
    /\ map CompetitorPrice.competitor_name table' = competitors
    /\ Forall (fun row => 40 <= CompetitorPrice.price row
                          /\ CompetitorPrice.price row <= 60) table'.
Proof.
  destruct (monitor_competitors (fun _ _ => true)
              (fun i => if Nat.even i then 0.25 else 0.9999) 0 [])
    as [r table'] eqn:Hrun.
  destruct (monitor_competitors_rows _ _ _ _ _ _
              (fun i => match Nat.even i as b
                              return 0 <= (if b then 0.25 else 0.9999)
                                     /\ (if b then 0.25 else 0.9999) < 1
                        with
                        | true => conj (Qlt_le_weak 0 0.25 eq_refl) eq_refl
                        | false => conj (Qlt_le_weak 0 0.9999 eq_refl) eq_refl
                        end)
              Hrun) as [Hok _].
  vm_compute in Hrun. injection Hrun as <- <-.
  destruct (Hok eq_refl) as (added & Htable & _ & Hnames & Hall & _).
  simpl in Htable. rewrite <- Htable in Hnames, Hall.
  eexists. split; [reflexivity |].
  split; [exact Hnames |].
  eapply Forall_impl; [exact Hall |].
  intros row (_ & _ & Hlo & Hhi). split; assumption.
Defined.

(** ** The default price against the competitor price *)

Lemma seg_factor_pos (segment : option string) : 0 < seg_factor_of segment.
Proof.
  destruct segment as [s |]; [| reflexivity].
  destruct (decide (s = "premium")) as [-> | Hp]; [reflexivity |].
  destruct (decide (s = "budget")) as [-> | Hb]; [reflexivity |].
  destruct (decide (s = "loyalty")) as [-> | Hl]; [reflexivity |].
  rewrite (seg_factor_standard (Some s)); [reflexivity |].
  intros s' Hs'. injection Hs' as <-. repeat split; assumption.
Qed.

Lemma comp_factor_antitone (ratio ratio' : Q) :
  ratio' <= ratio ->
  (if Py.gtb ratio 1.1 then 0.95 else if Py.ltb ratio 0.9 then 1.05 else 1.0)
  <= (if Py.gtb ratio' 1.1 then 0.95 else if Py.ltb ratio' 0.9 then 1.05 else 1.0).
Proof.
  intros H.
  destruct (Py.gtb ratio 1.1) eqn:E1; destruct (Py.gtb ratio' 1.1) eqn:E2;
    destruct (Py.ltb ratio 0.9) eqn:E3; destruct (Py.ltb ratio' 0.9) eqn:E4;
    py_cmp; lra.
Qed.

Lemma ratio_antitone (base c c' : Q) :
  0 <= base -> 0 < c -> c <= c' -> base / c' <= base / c.
Proof.
  intros Hbase Hc Hcc'.
  assert (0 < c') as Hc' by lra.
  apply Qle_shift_div_l; [exact Hc |].
  assert (base / c' * c' == base) as E by (field; lra).
  assert (0 <= base / c') as Hr.
  { apply Qle_shift_div_l; [exact Hc' | lra]. }
  assert (0 <= base / c' * (c' - c)) as Hp by (apply Qmult_le_0_compat; lra).
  lra.
Qed.

Lemma Qmult_le_nonneg_l (k a b : Q) : 0 <= k -> a <= b -> k * a <= k * b.
Proof.
  intros Hk Hab. rewrite (Qmult_comm k a), (Qmult_comm k b).
  apply Qmult_le_compat_r; assumption.
Qed.

(** X14: Under the default strategy a higher competitor price never lowers
    the quote: for a cost price and a seasonality factor that are not
    negative and a positive competitor price, replacing the competitor
    price by one that is not lower gives a dynamic price that is not
    lower, and the same base price. *)
Theorem default_monotone_in_competitor (req : PricingRequest.t) (s c' : Q) :
  0 <= cost_price req ->
  seasonality_factor req = Some s ->
  0 <= s ->
  0 < competitor_price req ->
  competitor_price req <= c' ->
  exists q q' : PriceData.t,
    _calculate_default_price req = inr q
    /\ _calculate_default_price
         {| product_id := product_id req;
            cost_price := cost_price req;
            demand_score := demand_score req;
            inventory := inventory req;
            competitor_price := c';
            customer_segment := customer_segment req;
            seasonality_factor := seasonality_factor req |} = inr q'
    /\ PriceData.dynamic_price q <= PriceData.dynamic_price q'
    /\ PriceData.base_price q = PriceData.base_price q'.
Proof.
  intros Hcost Hseason Hs Hc Hcc'.
  assert (~ competitor_price req == 0) as Hnz by lra.
  pose proof (default_price_value req s Hnz Hseason) as Hq.
  pose proof (default_price_value
                {| product_id := product_id req;
                   cost_price := cost_price req;
                   demand_score := demand_score req;
                   inventory := inventory req;
                   competitor_price := c';
                   customer_segment := customer_segment req;
                   seasonality_factor := seasonality_factor req |} s) as Hq'.
  cbn [product_id cost_price demand_score inventory competitor_price
       customer_segment seasonality_factor] in Hq'.
  specialize (Hq' ltac:(lra) Hseason).
  cbv zeta in Hq, Hq'.
  do 2 eexists. split; [exact Hq |]. split; [exact Hq' |].
  cbn [PriceData.dynamic_price PriceData.base_price].
  split; [| reflexivity].
  destruct (markup_bounds (demand_score req)) as [Hm _].
  set (base := cost_price req * (1 + _get_base_markup (demand_score req))) in *.
  assert (0 <= base) as Hbase by (apply Qmult_le_0_compat; lra).
  pose proof (demand_factor_pos (demand_score req) 0.85 1.0 1.25
                eq_refl eq_refl eq_refl) as Hd.
  assert (0 < (if (inventory req <=? 10)%Z then 1.15
               else if (inventory req <=? 100)%Z then 1.0 else 0.90)) as Hi.
  { destruct (inventory req <=? 10)%Z; [reflexivity |].
    destruct (inventory req <=? 100)%Z; reflexivity. }
  pose proof (seg_factor_pos (customer_segment req)) as Hseg.
  apply round2_mono, clamp_mono; [lra | | lra].
  apply Qmult_le_compat_r; [| lra].
  apply Qmult_le_compat_r; [| exact Hs].
  apply Qmult_le_nonneg_l.
  - apply Qmult_le_0_compat; [apply Qmult_le_0_compat |]; lra.
  - apply comp_factor_antitone, ratio_antitone; assumption.
Qed.

Lemma default_monotone_in_competitor_witness :
  exists q q' : PriceData.t,
    _calculate_default_price req_spec_example = inr q
    /\ _calculate_default_price
         {| product_id := "P1"; cost_price := 10; demand_score := 5; inventory := 50;
            competitor_price := 11; customer_segment := Some "standard";
            seasonality_factor := Some 1.0 |} = inr q'
    /\ PriceData.dynamic_price q' <= PriceData.dynamic_price q.
Proof.
  destruct (default_monotone_in_competitor
              {| product_id := "P1"; cost_price := 10; demand_score := 5;
                 inventory := 50; competitor_price := 11;
                 customer_segment := Some "standard";
                 seasonality_factor := Some 1.0 |} 1.0 20)
    as (q' & q & Hq' & Hq & Hle & _);
    [vm_compute; discriminate | reflexivity | vm_compute; discriminate
     | reflexivity | vm_compute; discriminate |].
  exists q, q'. split; [exact Hq |]. split; [exact Hq' | exact Hle].
Defined.

(** ** Demand, inventory, seasonality and segment *)

Lemma step_factor_mono (v v' t1 t2 : Z) (a b c : Q) :
  (v <= v')%Z -> (t1 <= t2)%Z -> a <= b -> b <= c ->
  (if (v <=? t1)%Z then a else if (v <=? t2)%Z then b else c)
  <= (if (v' <=? t1)%Z then a else if (v' <=? t2)%Z then b else c).
Proof.
  intros Hv Ht Hab Hbc.
  destruct (Z.leb_spec v t1); destruct (Z.leb_spec v' t1);
    destruct (Z.leb_spec v t2); destruct (Z.leb_spec v' t2);
    try lia; lra.
Qed.

Lemma step_factor_antitone (v v' t1 t2 : Z) (a b c : Q) :
  (v' <= v)%Z -> (t1 <= t2)%Z -> b <= a -> c <= b ->
  (if (v <=? t1)%Z then a else if (v <=? t2)%Z then b else c)
  <= (if (v' <=? t1)%Z then a else if (v' <=? t2)%Z then b else c).
Proof.
  intros Hv Ht Hab Hbc.
  destruct (Z.leb_spec v t1); destruct (Z.leb_spec v' t1);
    destruct (Z.leb_spec v t2); destruct (Z.leb_spec v' t2);
    try lia; lra.
Qed.

(** X15: Under the aggressive and the conservative strategy, and for a cost
    price that is not negative, a higher demand score between 1 and 10
    never lowers the dynamic price or the base price. *)
Theorem higher_demand_simple_strategies (req req' : PricingRequest.t) :
  0 <= cost_price req ->
  cost_price req <= cost_price req' ->
  competitor_price req <= competitor_price req' ->
  (1 <= demand_score req)%Z ->
  (demand_score req <= demand_score req')%Z ->
  (demand_score req' <= 10)%Z ->
  exists qa qa' qc qc' : PriceData.t,
    _calculate_aggressive_price req = inr qa
    /\ _calculate_aggressive_price req' = inr qa'
    /\ PriceData.dynamic_price qa <= PriceData.dynamic_price qa'
    /\ PriceData.base_price qa <= PriceData.base_price qa'
    /\ _calculate_conservative_price req = inr qc
    /\ _calculate_conservative_price req' = inr qc'
    /\ PriceData.dynamic_price qc <= PriceData.dynamic_price qc'
    /\ PriceData.base_price qc <= PriceData.base_price qc'.
Proof.
  intros Hcost Hcc Hcomp Hlo Hds Hhi.
  pose proof (markup_mono _ _ Hlo Hds Hhi) as Hm.
  destruct (markup_bounds (demand_score req)) as [Hm0 _].
  assert (cost_price req * (1 + _get_base_markup (demand_score req) + 0.1)
          <= cost_price req' * (1 + _get_base_markup (demand_score req') + 0.1))
    as Hba by (apply Qmult_le_compat_nonneg; split; lra).
  assert (cost_price req * (1 + _get_base_markup (demand_score req) - 0.05)
          <= cost_price req' * (1 + _get_base_markup (demand_score req') - 0.05))
    as Hbc by (apply Qmult_le_compat_nonneg; split; lra).
  assert (0 <= cost_price req * (1 + _get_base_markup (demand_score req) + 0.1))
    as Hba0 by (apply Qmult_le_0_compat; lra).
  assert (0 <= cost_price req * (1 + _get_base_markup (demand_score req) - 0.05))
    as Hbc0 by (apply Qmult_le_0_compat; lra).
  pose proof (demand_factor_pos (demand_score req) 0.9 1.1 1.4
                eq_refl eq_refl eq_refl) as Hda0.
  pose proof (demand_factor_pos (demand_score req) 0.8 0.95 1.15
                eq_refl eq_refl eq_refl) as Hdc0.
  pose proof (step_factor_mono (demand_score req) (demand_score req') 3 7
                0.9 1.1 1.4 Hds ltac:(lia) ltac:(lra) ltac:(lra)) as Hda.
  pose proof (step_factor_mono (demand_score req) (demand_score req') 3 7
                0.8 0.95 1.15 Hds ltac:(lia) ltac:(lra) ltac:(lra)) as Hdc.
  do 4 eexists.
  split; [apply aggressive_price_value |].
  split; [apply aggressive_price_value |].
  cbn [PriceData.dynamic_price PriceData.base_price].
  split; [apply round2_mono, clamp_mono; [lra | | lra];
          apply Qmult_le_compat_nonneg; split; lra |].
  split; [apply round2_mono; exact Hba |].
  split; [apply conservative_price_value |].
  split; [apply conservative_price_value |].
  cbn [PriceData.dynamic_price PriceData.base_price].
  split; [apply round2_mono, clamp_mono; [lra | | lra];
          apply Qmult_le_compat_nonneg; split; lra |].
  apply round2_mono; exact Hbc.
Qed.

Lemma higher_demand_simple_strategies_witness :
  exists qa qa' : PriceData.t,
    _calculate_aggressive_price req_conservative_example = inr qa
    /\ _calculate_aggressive_price
         {| product_id := "P6"; cost_price := 100; demand_score := 9; inventory := 50;
            competitor_price := 90; customer_segment := Some "standard";
            seasonality_factor := Some 1.0 |} = inr qa'
    /\ PriceData.base_price qa <= PriceData.base_price qa'.
Proof.
  destruct (higher_demand_simple_strategies req_conservative_example
              {| product_id := "P6"; cost_price := 100; demand_score := 9;
                 inventory := 50; competitor_price := 90;
                 customer_segment := Some "standard";
                 seasonality_factor := Some 1.0 |})
    as (qa & qa' & _ & _ & Ha & Ha' & _ & Hb & _);
    [vm_compute; discriminate | vm_compute; discriminate | vm_compute; discriminate
     | simpl; lia | simpl; lia | simpl; lia |].
  exists qa, qa'. split; [exact Ha |]. split; [exact Ha' | exact Hb].
Defined.

Lemma default_price_mono (req req' : PricingRequest.t) (s s' : Q) :
  cost_price req = cost_price req' ->
  demand_score req = demand_score req' ->
  competitor_price req = competitor_price req' ->
  0 <= cost_price req ->
  ~ competitor_price req == 0 ->
  seasonality_factor req = Some s ->
  seasonality_factor req' = Some s' ->
  0 <= s -> s <= s' ->
  (inventory req' <= inventory req)%Z ->
  seg_factor_of (customer_segment req) <= seg_factor_of (customer_segment req') ->
  exists q q' : PriceData.t,
    _calculate_default_price req = inr q
    /\ _calculate_default_price req' = inr q'
    /\ PriceData.dynamic_price q <= PriceData.dynamic_price q'
    /\ PriceData.base_price q = PriceData.base_price q'.
Proof.
  intros Ecost Eds Ecomp Hcost Hnz Hs Hs' Hs0 Hss Hinv Hseg.
  pose proof (default_price_value req s Hnz Hs) as Hq.
  assert (~ competitor_price req' == 0) as Hnz' by (rewrite <- Ecomp; exact Hnz).
  pose proof (default_price_value req' s' Hnz' Hs') as Hq'.
  cbv zeta in Hq, Hq'. rewrite <- Ecost, <- Eds, <- Ecomp in Hq'.
  do 2 eexists. split; [exact Hq |]. split; [exact Hq' |].
  cbn [PriceData.dynamic_price PriceData.base_price].
  split; [| reflexivity].
  destruct (markup_bounds (demand_score req)) as [Hm _].
  set (base := cost_price req * (1 + _get_base_markup (demand_score req))) in *.
  assert (0 <= base) as Hbase by (apply Qmult_le_0_compat; lra).
  pose proof (demand_factor_pos (demand_score req) 0.85 1.0 1.25
                eq_refl eq_refl eq_refl) as Hd.
  assert (0 < (if (inventory req <=? 10)%Z then 1.15
               else if (inventory req <=? 100)%Z then 1.0 else 0.90)) as Hi0.
  { destruct (inventory req <=? 10)%Z; [reflexivity |].
    destruct (inventory req <=? 100)%Z; reflexivity. }
  pose proof (step_factor_antitone (inventory req) (inventory req') 10 100
                1.15 1.0 0.90 Hinv ltac:(lia) ltac:(lra) ltac:(lra)) as Hi.
  pose proof (seg_factor_pos (customer_segment req)) as Hseg0.
  set (cf := if Py.gtb (base / competitor_price req) 1.1 then 0.95
             else if Py.ltb (base / competitor_price req) 0.9 then 1.05 else 1.0).
  assert (0 < cf) as Hcf.
  { subst cf. destruct (Py.gtb _ _); [reflexivity |].
    destruct (Py.ltb _ _); reflexivity. }
  apply round2_mono, clamp_mono; [lra | | lra].
  apply Qmult_le_compat_nonneg; split; [| | lra | exact Hseg].
  - repeat apply Qmult_le_0_compat; lra.
  - apply Qmult_le_compat_nonneg; split; [| | exact Hs0 | exact Hss].
    + repeat apply Qmult_le_0_compat; lra.
    + apply Qmult_le_compat_r; [| lra].
      apply Qmult_le_nonneg_l; [apply Qmult_le_0_compat; lra | exact Hi].
Qed.

(** X16: Under the default strategy, for a cost price and seasonality factors
    that are not negative: of two requests that differ only in inventory
    and seasonality factor, the one with no more stock and no lower
    seasonality factor gets a dynamic price that is not lower. *)
Theorem default_monotone_in_inventory_and_season
    (req req' : PricingRequest.t) (s s' : Q) :
  cost_price req = cost_price req' ->
  demand_score req = demand_score req' ->
  competitor_price req = competitor_price req' ->
  customer_segment req = customer_segment req' ->
  0 <= cost_price req ->
  ~ competitor_price req == 0 ->
  seasonality_factor req = Some s ->
  seasonality_factor req' = Some s' ->
  0 <= s -> s <= s' ->
  (inventory req' <= inventory req)%Z ->
  exists q q' : PriceData.t,
    _calculate_default_price req = inr q
    /\ _calculate_default_price req' = inr q'
    /\ PriceData.dynamic_price q <= PriceData.dynamic_price q'
    /\ PriceData.base_price q = PriceData.base_price q'.
Proof.
  intros Ecost Eds Ecomp Eseg Hcost Hnz Hs Hs' Hs0 Hss Hinv.
  apply (default_price_mono req req' s s'); try assumption.
  rewrite Eseg. lra.
Qed.

Lemma default_monotone_in_inventory_and_season_witness :
  exists q q' : PriceData.t,
    _calculate_default_price
      {| product_id := "P1"; cost_price := 10; demand_score := 5; inventory := 500;
         competitor_price := 20; customer_segment := Some "standard";
         seasonality_factor := Some 0.9 |} = inr q
    /\ _calculate_default_price req_spec_example = inr q'
    /\ PriceData.dynamic_price q <= PriceData.dynamic_price q'.
Proof.
  destruct (default_monotone_in_inventory_and_season
              {| product_id := "P1"; cost_price := 10; demand_score := 5;
                 inventory := 500; competitor_price := 20;
                 customer_segment := Some "standard";
                 seasonality_factor := Some 0.9 |}
              req_spec_example 0.9 1.0)
    as (q & q' & Hq & Hq' & Hle & _);
    [reflexivity | reflexivity | reflexivity | reflexivity
     | vm_compute; discriminate | discriminate | reflexivity | reflexivity
     | vm_compute; discriminate | vm_compute; discriminate | simpl; lia |].
  exists q, q'. split; [exact Hq |]. split; [exact Hq' | exact Hle].
Defined.

(** X17: Under the default strategy, for a cost price and a seasonality factor
    that are not negative, the four known segments are priced in order:
    budget, loyalty, standard, premium. *)
Theorem default_segment_order (req : PricingRequest.t) (s : Q) :
  0 <= cost_price req ->
  ~ competitor_price req == 0 ->
  seasonality_factor req = Some s ->
  0 <= s ->
  let at_segment (segment : string) :=
    {| product_id := product_id req;
       cost_price := cost_price req;
       demand_score := demand_score req;
       inventory := inventory req;
       competitor_price := competitor_price req;
       customer_segment := Some segment;
       seasonality_factor := seasonality_factor req |} in
  exists qb ql qs qp : PriceData.t,
    _calculate_default_price (at_segment "budget") = inr qb
    /\ _calculate_default_price (at_segment "loyalty") = inr ql
    /\ _calculate_default_price (at_segment "standard") = inr qs
    /\ _calculate_default_price (at_segment "premium") = inr qp
    /\ PriceData.dynamic_price qb <= PriceData.dynamic_price ql
    /\ PriceData.dynamic_price ql <= PriceData.dynamic_price qs
    /\ PriceData.dynamic_price qs <= PriceData.dynamic_price qp.
Proof.
  intros Hcost Hnz Hs Hs0 at_segment.
  assert (forall a b : string,
             seg_factor_of (Some a) <= seg_factor_of (Some b) ->
             exists q q',
               _calculate_default_price (at_segment a) = inr q
               /\ _calculate_default_price (at_segment b) = inr q'
               /\ PriceData.dynamic_price q <= PriceData.dynamic_price q') as Hstep.
  { intros a b Hab.
    destruct (default_price_mono (at_segment a) (at_segment b) s s)
      as (q & q' & Hq & Hq' & Hle & _);
      [reflexivity | reflexivity | reflexivity | exact Hcost | exact Hnz
       | exact Hs | exact Hs | exact Hs0 | apply Qle_refl | apply Z.le_refl
       | exact Hab |].
    exists q, q'. repeat split; assumption. }
  destruct (Hstep "budget" "loyalty") as (qb & ql & Hb & Hl & H1);
    [vm_compute; discriminate |].
  destruct (Hstep "loyalty" "standard") as (ql' & qs & Hl' & Hs1 & H2);
    [vm_compute; discriminate |].
  destruct (Hstep "standard" "premium") as (qs' & qp & Hs1' & Hp & H3);
    [vm_compute; discriminate |].
  assert (ql' = ql) as -> by congruence.
  assert (qs' = qs) as -> by congruence.
  exists qb, ql, qs, qp. repeat split; assumption.
Qed.

Lemma default_segment_order_witness :
  exists qb qp : PriceData.t,
    _calculate_default_price
      {| product_id := "P1"; cost_price := 10; demand_score := 5; inventory := 50;
         competitor_price := 20; customer_segment := Some "budget";
         seasonality_factor := Some 1.0 |} = inr qb
    /\ _calculate_default_price
         {| product_id := "P1"; cost_price := 10; demand_score := 5; inventory := 50;
            competitor_price := 20; customer_segment := Some "premium";
            seasonality_factor := Some 1.0 |} = inr qp
    /\ PriceData.dynamic_price qb <= PriceData.dynamic_price qp.
Proof.
  destruct (default_segment_order req_spec_example 1.0)
    as (qb & ql & qs & qp & Hb & _ & _ & Hp & H1 & H2 & H3);
    [vm_compute; discriminate | discriminate | reflexivity
     | vm_compute; discriminate |].
  exists qb, qp. split; [exact Hb |]. split; [exact Hp |].
  exact (Qle_trans _ _ _ H1 (Qle_trans _ _ _ H2 H3)).
Defined.

(** ** Exceptions of the entry point *)

(** X18: [calculate] ends with one of three exceptions only.  A division by
    zero and a type error come from the default calculator, so not under
    the names ["aggressive"] and ["conservative"], and leave the database
    exactly as it was, no session opened; the storage exception leaves
    the table as it was. *)
Theorem calculate_errors
    (commit_accepts : list PricingHistory.t -> list PricingHistory.t -> bool)
    (req : PricingRequest.t) (strategy : string) (w w' : Database) (e : exn) :
  calculate commit_accepts req strategy w = (inl e, w') ->
  (e = SQLAlchemyError /\ pricing_history w' = pricing_history w
   /\ exists q, default _calculate_default_price
                        (price_adjustment_strategies !! strategy) req = inr q)
  \/ ((e = ZeroDivisionError \/ e = TypeError)
      /\ w' = w
      /\ strategy <> "aggressive" /\ strategy <> "conservative"
      /\ _calculate_default_price req = inl e).
Proof.
  intros Hcalc. rewrite calculate_unfold in Hcalc.
  destruct (default _calculate_default_price
                    (price_adjustment_strategies !! strategy) req)
    as [e0 | q] eqn:Hsel.
  - inversion Hcalc; subst. right.
    destruct (decide (strategy = "aggressive")) as [-> | Ha].
    { rewrite registry_aggressive in Hsel. cbn [from_option id] in Hsel.
      rewrite aggressive_price_value in Hsel. discriminate. }
    destruct (decide (strategy = "conservative")) as [-> | Hc].
    { rewrite registry_conservative in Hsel. cbn [from_option id] in Hsel.
      rewrite conservative_price_value in Hsel. discriminate. }
    rewrite (selects_default strategy Ha Hc) in Hsel.
    split; [| repeat split; assumption].
    destruct (default_outcome req) as [[_ H] | [(_ & _ & H) | (_ & q & H)]];
      rewrite H in Hsel; [left | right | discriminate]; congruence.
  - cbv zeta in Hcalc. destruct (commit_accepts _ _); inversion Hcalc; subst.
    left. split; [reflexivity |]. split; [reflexivity |]. exists q. reflexivity.
Qed.

Lemma calculate_errors_witness :
  calculate always_accepts req_no_seasonality "default" empty_database
  = (inl TypeError, empty_database)
  /\ _calculate_default_price req_no_seasonality = inl TypeError.
Proof.
  assert (calculate always_accepts req_no_seasonality "default" empty_database
          = (inl TypeError, empty_database)) as Hcalc by reflexivity.
  split; [exact Hcalc |].
  destruct (calculate_errors _ _ _ _ _ _ Hcalc)
    as [(He & _) | (_ & _ & _ & _ & Hdef)]; [discriminate | exact Hdef].
Defined.
